(** * Weather-station bot: a shallow embedding of [src/main.py]

    The retention, persistence, query, classification and alerting code of
    the FastAPI / discord.py weather station is rendered as Rocq functions
    over explicit state.  Readings carry IEEE-754 binary64 values
    (the kernel's primitive floats), timestamps are pandas' integer
    nanosecond values, the request body and the data file are JSON trees.

    Layout: the Python and pandas built-ins the program calls, the data
    model, the program's functions in source order, then the theorems. *)

From Stdlib Require Import ZArith List Bool Lia String Ascii Floats Uint63.
From Stdlib Require Import Sorted Permutation.
Import ListNotations.

Local Open Scope Z_scope.

(** ** Python built-ins *)

Module Py.

(** [l[start:]] on a list: a negative start counts from the end and is
    clamped at the front. *)
Definition slice_from {A : Type} (start : Z) (l : list A) : list A :=
  let len := Z.of_nat (List.length l) in
  let i := if start <? 0 then Z.max (len + start) 0 else start in
  skipn (Z.to_nat i) l.

(** [len(l)] *)
Definition len {A : Type} (l : list A) : Z := Z.of_nat (List.length l).

(** The correctly rounded (nearest, ties to even) binary64 value of the
    positive rational [n / d]; [infinity] on overflow. *)
Definition round_ratio (n d : Z) : float :=
  let l := Z.log2 n - Z.log2 d in
  let e1 := l - 52 in
  let quo e := if 0 <=? e then n / (d * 2 ^ e) else (n * 2 ^ (- e)) / d in
  let e2 := if quo e1 <? 2 ^ 52 then e1 - 1 else e1 in
  let e := Z.max e2 (-1074) in
  let num := if 0 <=? e then n else n * 2 ^ (- e) in
  let den := if 0 <=? e then d * 2 ^ e else d in
  let q := num / den in
  let r := num mod den in
  let q' := if 2 * r <? den then q
            else if den <? 2 * r then q + 1
            else if Z.even q then q else q + 1 in
  Z.ldexp (PrimFloat.of_uint63 (Uint63.of_Z q')) e.

Definition with_sign (neg : bool) (f : float) : float :=
  if neg then PrimFloat.opp f else f.

(** [m * 10^e] as a double, [m >= 0]. *)
Definition float_of_decimal (m e : Z) : float :=
  if m =? 0 then PrimFloat.zero
  else if 0 <=? e then round_ratio (m * 10 ^ e) 1
  else round_ratio m (10 ^ (- e)).

(** [float(i)] for an [int]: [None] stands for [OverflowError]. *)
Definition float_of_int (z : Z) : option float :=
  let f := with_sign (z <? 0) (float_of_decimal (Z.abs z) 0) in
  if PrimFloat.is_infinity f then None else Some f.

(** *** [float(s)] for a [str]

    The grammar of CPython's [float_from_string] on ASCII text: blanks
    are stripped at both ends, underscores may separate digits, then a
    sign and [inf], [infinity], [nan] or a decimal numeral with an
    optional exponent.  [None] stands for [ValueError]. *)

(** [Py_ISSPACE]: the blanks of C's [isspace]. *)
Definition is_space (c : ascii) : bool :=
  let n := nat_of_ascii c in
  ((9 <=? n) && (n <=? 13) || (n =? 32))%nat.

Definition is_digit (c : ascii) : bool :=
  let n := nat_of_ascii c in ((48 <=? n) && (n <=? 57))%nat.

Definition digit_val (c : ascii) : Z := Z.of_nat (nat_of_ascii c) - 48.

Definition lower (c : ascii) : ascii :=
  let n := nat_of_ascii c in
  if ((65 <=? n) && (n <=? 90))%nat then ascii_of_nat (n + 32) else c.

Fixpoint lstrip (s : list ascii) : list ascii :=
  match s with
  | c :: rest => if is_space c then lstrip rest else s
  | [] => []
  end.

Definition strip (s : list ascii) : list ascii :=
  rev (lstrip (rev (lstrip s))).

(** Underscores are dropped when each stands between two digits. *)
Fixpoint drop_underscores (prev_digit : bool) (s : list ascii)
  : option (list ascii) :=
  match s with
  | [] => Some []
  | c :: rest =>
      if Ascii.eqb c "_" then
        match rest with
        | d :: _ =>
            if prev_digit && is_digit d then drop_underscores false rest
            else None
        | [] => None
        end
      else option_map (cons c) (drop_underscores (is_digit c) rest)
  end.

(** The leading digits of [s]: their value, their number, the rest. *)
Fixpoint take_digits (acc : Z) (n : Z) (s : list ascii)
  : Z * Z * list ascii :=
  match s with
  | c :: rest =>
      if is_digit c then take_digits (10 * acc + digit_val c) (n + 1) rest
      else (acc, n, s)
  | [] => (acc, n, [])
  end.

Definition take_sign (s : list ascii) : bool * list ascii :=
  match s with
  | c :: rest =>
      if Ascii.eqb c "-" then (true, rest)
      else if Ascii.eqb c "+" then (false, rest)
      else (false, s)
  | [] => (false, [])
  end.

Definition parse_exponent (s : list ascii) : option Z :=
  match s with
  | [] => Some 0
  | c :: rest =>
      if Ascii.eqb (lower c) "e" then
        let '(neg, rest1) := take_sign rest in
        match take_digits 0 0 rest1 with
        | (v, n, []) => if 0 <? n then Some (if neg then - v else v) else None
        | _ => None
        end
      else None
  end.

Definition parse_decimal (s : list ascii) : option float :=
  let '(ip, n1, rest) := take_digits 0 0 s in
  let '(m, n2, rest2) :=
    match rest with
    | c :: rest1 =>
        if Ascii.eqb c "." then take_digits ip 0 rest1 else (ip, 0, rest)
    | [] => (ip, 0, [])
    end in
  if 0 <? n1 + n2 then
    match parse_exponent rest2 with
    | Some e => Some (float_of_decimal m (e - n2))
    | None => None
    end
  else None.

Definition float_of_str (s : string) : option float :=
  match drop_underscores false (strip (list_ascii_of_string s)) with
  | None => None
  | Some t =>
      let '(neg, body) := take_sign t in
      let word := string_of_list_ascii (map lower body) in
      if (String.eqb word "inf" || String.eqb word "infinity")%bool
      then Some (with_sign neg PrimFloat.infinity)
      else if String.eqb word "nan" then Some PrimFloat.nan
      else option_map (with_sign neg) (parse_decimal body)
  end.

End Py.

Set Warnings "-register-all,-inexact-float".

(** ** JSON values

    What [json.load] and [request.json()] return: a Python [dict] is an
    association list in insertion order. *)

Inductive json : Type :=
| JNull
| JBool (b : bool)
| JInt (z : Z)
| JFloat (f : float)
| JStr (s : string)
| JArr (items : list json)
| JObj (fields : list (string * json)).

(** [d[key]] and [key in d] on a [dict]. *)
Fixpoint dict_get {V : Type} (key : string) (d : list (string * V)) : option V :=
  match d with
  | [] => None
  | (k, v) :: rest => if String.eqb k key then Some v else dict_get key rest
  end.

Definition dict_mem {V : Type} (key : string) (d : list (string * V)) : bool :=
  match dict_get key d with Some _ => true | None => false end.

(** [float(v)] on a decoded JSON value: [None] stands for the
    [ValueError], [TypeError] or [OverflowError] Python raises. *)
Definition py_float (v : json) : option float :=
  match v with
  | JFloat f => Some f
  | JInt z => Py.float_of_int z
  | JBool b => Some (if b then 1%float else 0%float)
  | JStr s => Py.float_of_str s
  | JNull | JArr _ | JObj _ => None
  end.

(** [json.dumps(v, allow_nan=False)] returns: it raises [ValueError] on
    a float that is NaN or infinite, wherever it stands in [v]. *)
Fixpoint json_compliant (v : json) : bool :=
  match v with
  | JFloat f => PrimFloat.is_finite f
  | JArr items => forallb json_compliant items
  | JObj fields => forallb (fun kv => json_compliant (snd kv)) fields
  | JNull | JBool _ | JInt _ | JStr _ => true
  end.

(** ** Timestamps

    A naive [pd.Timestamp] through its calendar fields; [value] is the
    integer pandas stores (nanoseconds since 1970-01-01T00:00:00), and
    comparison and [Timedelta] arithmetic go through it. *)

Record Timestamp : Type := mkTimestamp {
  year : Z; month : Z; day : Z;
  hour : Z; minute : Z; second : Z;
  microsecond : Z; nanosecond : Z
}.

Module Time.

Definition is_leap (y : Z) : bool :=
  ((y mod 4 =? 0) && negb (y mod 100 =? 0)) || (y mod 400 =? 0).

Definition days_in_month (y m : Z) : Z :=
  if m =? 2 then (if is_leap y then 29 else 28)
  else if (m =? 4) || (m =? 6) || (m =? 9) || (m =? 11) then 30
  else 31.

(** Days from 1970-01-01 to the civil date [y-m-d]. *)
Definition days_from_civil (y m d : Z) : Z :=
  let y' := if m <=? 2 then y - 1 else y in
  let era := y' / 400 in
  let yoe := y' mod 400 in
  let mp := (m + 9) mod 12 in
  let doy := (153 * mp + 2) / 5 + d - 1 in
  let doe := yoe * 365 + yoe / 4 - yoe / 100 + doy in
  era * 146097 + doe - 719468.

Definition value (t : Timestamp) : Z :=
  ((days_from_civil (year t) (month t) (day t) * 86400
    + hour t * 3600 + minute t * 60 + second t) * 1000000
   + microsecond t) * 1000 + nanosecond t.

Definition in_range (lo x hi : Z) : bool := (lo <=? x) && (x <=? hi).

(** The field ranges of a timestamp that prints with a four-digit year. *)
Definition valid (t : Timestamp) : bool :=
  in_range 1 (year t) 9999 && in_range 1 (month t) 12
  && in_range 1 (day t) (days_in_month (year t) (month t))
  && in_range 0 (hour t) 23 && in_range 0 (minute t) 59
  && in_range 0 (second t) 59
  && in_range 0 (microsecond t) 999999 && in_range 0 (nanosecond t) 999.

(** [a >= b] *)
Definition geb (a : Z) (b : Z) : bool := b <=? a.

(** The value of [t - pd.Timedelta(hours=h)]; the int64 bounds pandas
    checks are left out. *)
Definition minus_hours (t : Timestamp) (h : Z) : Z :=
  value t - h * 3600 * 1000000000.

Definition digit_char (d : Z) : ascii := ascii_of_nat (Z.to_nat (48 + d)).

(** The [k] low decimal digits of [n], most significant first. *)
Fixpoint digits (k : nat) (n : Z) : list ascii :=
  match k with
  | O => []
  | S k' => digit_char ((n / 10 ^ Z.of_nat k') mod 10) :: digits k' n
  end.

(** [Timestamp.isoformat()] with [timespec='auto']. *)
Definition isoformat_chars (t : Timestamp) : list ascii :=
  digits 4 (year t) ++ ["-"%char] ++ digits 2 (month t) ++ ["-"%char]
  ++ digits 2 (day t) ++ ["T"%char] ++ digits 2 (hour t) ++ [":"%char]
  ++ digits 2 (minute t) ++ [":"%char] ++ digits 2 (second t)
  ++ (if negb (nanosecond t =? 0)
      then ["."%char] ++ digits 6 (microsecond t) ++ digits 3 (nanosecond t)
      else if negb (microsecond t =? 0)
      then ["."%char] ++ digits 6 (microsecond t)
      else []).

Definition isoformat (t : Timestamp) : string :=
  string_of_list_ascii (isoformat_chars t).

(** Exactly [k] digits. *)
Fixpoint read_digits (k : nat) (acc : Z) (s : list ascii)
  : option (Z * list ascii) :=
  match k with
  | O => Some (acc, s)
  | S k' =>
      match s with
      | c :: rest =>
          if Py.is_digit c
          then read_digits k' (10 * acc + Py.digit_val c) rest
          else None
      | [] => None
      end
  end.

Definition expect (cs : list ascii) (s : list ascii) : option (list ascii) :=
  match s with
  | c :: rest => if existsb (Ascii.eqb c) cs then Some rest else None
  | [] => None
  end.

(** The fraction of a second after the seconds field, in nanoseconds. *)
Definition read_fraction (s : list ascii) : option Z :=
  match s with
  | [] => Some 0
  | c :: rest =>
      if Ascii.eqb c "." then
        match Py.take_digits 0 0 rest with
        | (v, n, []) =>
            if in_range 1 n 9 then Some (v * 10 ^ (9 - n)) else None
        | _ => None
        end
      else None
  end.

Definition bind {A B : Type} (x : option A) (k : A -> option B) : option B :=
  match x with Some a => k a | None => None end.

(** [pd.Timestamp(s)] on ISO-8601 text of the shape [isoformat] writes
    ([YYYY-MM-DD], [T] or a blank, [HH:MM:SS], an optional fraction of
    one to nine digits).  pandas reads further spellings of a date;
    they are outside this model and count as rejected. *)
Definition parse_iso (s : string) : option Timestamp :=
  bind (read_digits 4 0 (list_ascii_of_string s)) (fun '(y, s1) =>
  bind (expect ["-"%char] s1) (fun s2 =>
  bind (read_digits 2 0 s2) (fun '(mo, s3) =>
  bind (expect ["-"%char] s3) (fun s4 =>
  bind (read_digits 2 0 s4) (fun '(d, s5) =>
  bind (expect ["T"%char; " "%char] s5) (fun s6 =>
  bind (read_digits 2 0 s6) (fun '(h, s7) =>
  bind (expect [":"%char] s7) (fun s8 =>
  bind (read_digits 2 0 s8) (fun '(mi, s9) =>
  bind (expect [":"%char] s9) (fun s10 =>
  bind (read_digits 2 0 s10) (fun '(sec, s11) =>
  bind (read_fraction s11) (fun frac =>
  let t := mkTimestamp y mo d h mi sec (frac / 1000) (frac mod 1000) in
  if valid t then Some t else None)))))))))))).

End Time.

(** [pd.Timestamp(v)] on a decoded JSON value; [None] stands for the
    exception pandas raises.  Only text is modelled: it is what
    [save_sensor_data] writes under ["time"]. *)
Definition pd_Timestamp (v : json) : option Timestamp :=
  match v with
  | JStr s => Time.parse_iso s
  | _ => None
  end.

(** ** pandas series operations used by the plot command

    [Series.rolling(window, center=True).mean()] as pandas 2 computes
    it: the bounds of [FixedWindowIndexer], then [roll_mean] of
    [window/aggregations.pyx], which keeps one running sum over the
    whole column, adding and removing values with Kahan's compensation.
    A float column holds NaN where pandas counts a value as missing;
    the smoothed columns are given as lists of observations, [None]
    at such a position. *)

Module Pandas.

(** [Rolling._prep_values]: an infinity is handed to the aggregation
    as NaN. *)
Definition prep_value (x : float) : float :=
  if PrimFloat.is_infinity x then PrimFloat.nan else x.

(** The locals of [roll_mean] that live from one window to the next. *)
Record mean_state : Type := mkMeanState {
  nobs : Z;
  sum_x : float;
  neg_ct : Z;
  compensation_add : float;
  compensation_remove : float;
  num_consecutive_same_value : Z;
  prev_value : float
}.

Definition add_mean (val : float) (s : mean_state) : mean_state :=
  if (val =? val)%float then
    let y := (val - compensation_add s)%float in
    let t := (sum_x s + y)%float in
    mkMeanState (nobs s + 1) t
                (if PrimFloat.get_sign val then neg_ct s + 1 else neg_ct s)
                (t - sum_x s - y)%float
                (compensation_remove s)
                (if (val =? prev_value s)%float
                 then num_consecutive_same_value s + 1 else 1)
                val
  else s.

Definition remove_mean (val : float) (s : mean_state) : mean_state :=
  if (val =? val)%float then
    let y := (- val - compensation_remove s)%float in
    let t := (sum_x s + y)%float in
    mkMeanState (nobs s - 1) t
                (if PrimFloat.get_sign val then neg_ct s - 1 else neg_ct s)
                (compensation_add s)
                (t - sum_x s - y)%float
                (num_consecutive_same_value s)
                (prev_value s)
  else s.

Definition calc_mean (minp : Z) (s : mean_state) : float :=
  if (minp <=? nobs s) && (0 <? nobs s) then
    let result := (sum_x s / PrimFloat.of_uint63 (Uint63.of_Z (nobs s)))%float in
    if nobs s <=? num_consecutive_same_value s then prev_value s
    else if (neg_ct s =? 0) && (result <? 0)%float then 0%float
    else if (neg_ct s =? nobs s) && (0 <? result)%float then 0%float
    else result
  else PrimFloat.nan.

(** [values[a:b]] and [values[j]] on the column. *)
Definition slice {A : Type} (a b : Z) (l : list A) : list A :=
  firstn (Z.to_nat (b - a)) (skipn (Z.to_nat a) l).

Definition at_index (values : list float) (j : Z) : float :=
  nth (Z.to_nat j) values PrimFloat.nan.

(** The state of a window computed afresh, and of a window computed
    from the window before it. *)
Definition mean_setup (values : list float) (s e : Z) : mean_state :=
  fold_left (fun st val => add_mean val st) (slice s e values)
            (mkMeanState 0 0 0 0 0 0 (at_index values s)).

Definition mean_slide (values : list float) (prev_s prev_e s e : Z)
  (st : mean_state) : mean_state :=
  fold_left (fun st val => add_mean val st) (slice prev_e e values)
            (fold_left (fun st val => remove_mean val st)
                       (slice prev_s s values) st).

(** The loop of [roll_mean] over the windows [bounds], which do not go
    back; [prev] is the window before with the state it left. *)
Fixpoint roll_mean_from (values : list float) (minp : Z)
  (prev : option (Z * Z * mean_state)) (bounds : list (Z * Z)) : list float :=
  match bounds with
  | [] => []
  | (s, e) :: rest =>
      let st :=
        match prev with
        | Some (prev_s, prev_e, st0) =>
            if prev_e <=? s then mean_setup values s e
            else mean_slide values prev_s prev_e s e st0
        | None => mean_setup values s e
        end in
      calc_mean minp st :: roll_mean_from values minp (Some (s, e, st)) rest
  end.

Definition roll_mean (values : list float) (bounds : list (Z * Z)) (minp : Z)
  : list float :=
  roll_mean_from values minp None bounds.

(** The bounds of the fixed window of position [i], clipped to the
    column: [FixedWindowIndexer] with [center=True]. *)
Definition window_bounds (n window i : Z) : Z * Z :=
  let offset := (window - 1) / 2 in
  let stop := i + 1 + offset in
  let start := stop - window in
  (Z.min (Z.max start 0) n, Z.min (Z.max stop 0) n).

Definition missing (x : float) : option float :=
  if PrimFloat.is_nan x then None else Some x.

(** [col.rolling(window=window, center=True).mean()], with
    [min_periods] left to its default, the window; [None] stands for
    the [ValueError] a negative window raises. *)
Definition rolling_mean_center (window : Z) (col : list float)
  : option (list (option float)) :=
  if window <? 0 then None
  else
    let bounds :=
      map (fun i => window_bounds (Py.len col) window (Z.of_nat i))
          (seq 0 (List.length col)) in
    Some (map missing (roll_mean (map prep_value col) bounds window)).

(** [fillna(method='ffill')]: a missing position takes the last value
    before it. *)
Fixpoint ffill_from {A : Type} (last : option A) (col : list (option A))
  : list (option A) :=
  match col with
  | [] => []
  | x :: rest =>
      let v := match x with Some _ => x | None => last end in
      v :: ffill_from v rest
  end.

Definition ffill {A : Type} (col : list (option A)) := ffill_from None col.

(** [fillna(method='bfill')]: a missing position takes the next value
    after it. *)
Definition bfill {A : Type} (col : list (option A)) : list (option A) :=
  rev (ffill (rev col)).

(** Insertion into a list ordered by [key], after the equal keys. *)
Fixpoint insert_by {A : Type} (key : A -> Z) (x : A) (l : list A) : list A :=
  match l with
  | [] => [x]
  | y :: rest =>
      if key x <? key y then x :: l else y :: insert_by key x rest
  end.

(** [df.sort_values(key)].  pandas' default sort promises no order
    among rows of equal key; here they stay in their order of arrival.
    What is stated of the order of the sorted rows is stated for
    distinct keys, where every sort gives the same frame. *)
Definition sort_values {A : Type} (key : A -> Z) (l : list A) : list A :=
  fold_left (fun acc x => insert_by key x acc) l [].

End Pandas.

(** ** Data model *)

(** One entry of [sensor_data]: the [dict] [update_data] builds, with the
    keys beyond ["temp"], ["hum"], ["time"] kept in order. *)
Record reading : Type := mkReading {
  temp : float;
  hum : float;
  time : Timestamp;
  extra : list (string * json)
}.

Record envelope : Type := mkEnvelope {
  temp_min : float;
  temp_ideal_min : float;
  temp_ideal_max : float;
  temp_max : float;
  hum_min : float;
  hum_max : float
}.

Definition SULCATA_ENV : envelope :=
  mkEnvelope 18.0 27.0 35.0 40.0 40.0 60.0.

Definition MAX_DATA_POINTS : Z := 10000.

Definition ALERT_COOLDOWN : float := 1800.

(** [DATA_FILE] on disk: absent, present but not decodable by
    [json.load] (or not readable), or holding a JSON document. *)
Inductive file : Type :=
| Missing
| Unreadable
| Doc (j : json).

Inductive level : Type := INFO | WARNING | ERROR.

Inductive event : Type :=
| Loaded (n : Z)
| LoadError
| Saved (n : Z)
| SaveError
| Received (t h : float)
| AlertSent
| AlertError
| UpdateError
| AlertChannelSet (id : Z).

(** The sections [check_conditions_and_alert] appends after the header. *)
Inductive alert_section : Type :=
| TEMPERATURE_TOO_LOW (t : float)
| TEMPERATURE_TOO_HIGH (t : float)
| HUMIDITY_TOO_LOW (h : float)
| HUMIDITY_TOO_HIGH (h : float).

(** The module's globals, the data file, the log and the alert messages
    delivered to Discord (channel and sections, oldest first). *)
Record state : Type := mkState {
  sensor_data : list reading;
  ALERT_CHANNEL_ID : option Z;
  last_alert_time : float;
  data_file : file;
  log : list (level * event);
  outbox : list (Z * list alert_section)
}.

(** The globals as the module leaves them on import. *)
Definition initial_state (f : file) : state :=
  mkState [] None 0 f [] [].

Definition set_sensor_data (st : state) (d : list reading) : state :=
  mkState d (ALERT_CHANNEL_ID st) (last_alert_time st) (data_file st)
          (log st) (outbox st).

Definition set_data_file (st : state) (f : file) : state :=
  mkState (sensor_data st) (ALERT_CHANNEL_ID st) (last_alert_time st) f
          (log st) (outbox st).

Definition logger (lv : level) (e : event) (st : state) : state :=
  mkState (sensor_data st) (ALERT_CHANNEL_ID st) (last_alert_time st)
          (data_file st) (log st ++ [(lv, e)]) (outbox st).

(** ** Data management *)

Definition core_key (k : string) : bool :=
  String.eqb k "temp" || String.eqb k "hum" || String.eqb k "time".

(** [{**item, "time": item["time"].isoformat()}] *)
Definition encode_entry (r : reading) : json :=
  JObj ([("temp"%string, JFloat (temp r)); ("hum"%string, JFloat (hum r));
         ("time"%string, JStr (Time.isoformat (time r)))] ++ extra r).

(** An entry of the file as an entry of the store, its ["time"] through
    [pd.Timestamp].  The store is typed: an object without a float under
    ["temp"] and ["hum"] is not an entry of it and counts as a failure. *)
Definition decode_entry (j : json) : option reading :=
  match j with
  | JObj fields =>
      match dict_get "time" fields, dict_get "temp" fields,
            dict_get "hum" fields with
      | Some tj, Some (JFloat t), Some (JFloat h) =>
          match pd_Timestamp tj with
          | Some ts =>
              Some (mkReading t h ts
                      (filter (fun kv => negb (core_key (fst kv))) fields))
          | None => None
          end
      | _, _, _ => None
      end
  | _ => None
  end.

Fixpoint decode_entries (l : list json) : option (list reading) :=
  match l with
  | [] => Some []
  | j :: rest =>
      match decode_entry j, decode_entries rest with
      | Some r, Some rs => Some (r :: rs)
      | _, _ => None
      end
  end.

(** The [try] body of [load_sensor_data] once the file exists; [None]
    stands for any exception it raises.  A document that is no array
    fails in the loop or at the slice, but for the empty text, which
    has no element and slices to itself. *)
Definition read_data_file (f : file) : option (list reading) :=
  match f with
  | Doc (JArr items) =>
      match decode_entries items with
      | Some data => Some (Py.slice_from (- MAX_DATA_POINTS) data)
      | None => None
      end
  | Doc (JStr EmptyString) => Some []
  | _ => None
  end.

Definition load_sensor_data (st : state) : state :=
  match data_file st with
  | Missing => st
  | f =>
      match read_data_file f with
      | Some data =>
          logger INFO (Loaded (Py.len data)) (set_sensor_data st data)
      | None => set_sensor_data (logger ERROR LoadError st) []
      end
  end.

(** What a write of the data file comes to: done, or an [OSError] that
    leaves the file in some state. *)
Inductive write_outcome : Type :=
| Written
| WriteFailed (remains : file).

Definition save_sensor_data (w : write_outcome) (st : state) : state :=
  let data_to_save := map encode_entry (sensor_data st) in
  match w with
  | Written =>
      logger INFO (Saved (Py.len data_to_save))
             (set_data_file st (Doc (JArr data_to_save)))
  | WriteFailed remains => logger ERROR SaveError (set_data_file st remains)
  end.

(** ** Discord commands *)

(** [sensor_data[-1]] *)
Definition latest (data : list reading) : option reading :=
  match rev data with
  | r :: _ => Some r
  | [] => None
  end.

(** The five temperature messages of [!sulcata_status], by their
    headline, and the three humidity messages. *)
Inductive temp_status : Type :=
| TOO_COLD | Too_Cool | Temp_Perfect | Too_Warm | TOO_HOT.

Inductive hum_status : Type :=
| Too_Dry | Hum_Perfect | Too_Humid.

Definition temperature_status (t : float) : temp_status :=
  if (t <? temp_min SULCATA_ENV)%float then TOO_COLD
  else if (t <? temp_ideal_min SULCATA_ENV)%float then Too_Cool
  else if (t <=? temp_ideal_max SULCATA_ENV)%float then Temp_Perfect
  else if (t <=? temp_max SULCATA_ENV)%float then Too_Warm
  else TOO_HOT.

Definition humidity_status (h : float) : hum_status :=
  if (h <? hum_min SULCATA_ENV)%float then Too_Dry
  else if (h <=? hum_max SULCATA_ENV)%float then Hum_Perfect
  else Too_Humid.

Inductive status_reply : Type :=
| No_data_available_yet
| Environment_Status (as_of : Timestamp) (t : float) (ts : temp_status)
                     (h : float) (hs : hum_status).

Definition sulcata_status (st : state) : status_reply :=
  match latest (sensor_data st) with
  | None => No_data_available_yet
  | Some r =>
      Environment_Status (time r) (temp r) (temperature_status (temp r))
                         (hum r) (humidity_status (hum r))
  end.

(** [!set_alerts] sent from the channel [channel_id]. *)
Definition set_alerts (channel_id : Z) (st : state) : state :=
  logger INFO (AlertChannelSet channel_id)
    (mkState (sensor_data st) (Some channel_id) (last_alert_time st)
             (data_file st) (log st) (outbox st)).

(** [!plot_rolling]: the filtered, sorted frame with its two smoothed
    columns, or the message sent instead. *)
Inductive plot_reply : Type :=
| No_data_available_to_plot
| Not_enough_data (hours window : Z)
| Command_error
| Rolling_plot (df : list reading) (temp_smooth hum_smooth : list (option float)).

Definition smooth (window : Z) (col : list float) : option (list (option float)) :=
  match Pandas.rolling_mean_center window col with
  | Some m => Some (Pandas.bfill (Pandas.ffill m))
  | None => None
  end.

Definition send_plot_rolling (now : Timestamp) (hours window : Z) (st : state)
  : plot_reply :=
  match sensor_data st with
  | [] => No_data_available_to_plot
  | data =>
      let cutoff_time := Time.minus_hours now hours in
      let df := filter (fun r => Time.geb (Time.value (time r)) cutoff_time) data in
      if (Py.len df =? 0) || (Py.len df <? window) then Not_enough_data hours window
      else
        let df := Pandas.sort_values (fun r => Time.value (time r)) df in
        match smooth window (map temp df), smooth window (map hum df) with
        | Some ts, Some hs => Rolling_plot df ts hs
        | _, _ => Command_error
        end
  end.

(** ** FastAPI endpoints *)

(** What the Discord client answers when an alert is dispatched: the
    channel is not in its cache, the lookup or the send raises, or the
    message is delivered. *)
Inductive dispatch : Type :=
| Channel_not_found
| Dispatch_raises
| Delivered.

(** [not ALERT_CHANNEL_ID] *)
Definition no_alert_channel (st : state) : bool :=
  match ALERT_CHANNEL_ID st with
  | None => true
  | Some id => id =? 0
  end.

(** The two checks of [check_conditions_and_alert]: each threads
    [alert_needed] and [alert_message_parts]. *)
Definition check_temperature (t : float) (acc : bool * list alert_section)
  : bool * list alert_section :=
  if (t <? temp_min SULCATA_ENV)%float
  then (true, snd acc ++ [TEMPERATURE_TOO_LOW t])
  else if (temp_max SULCATA_ENV <? t)%float
  then (true, snd acc ++ [TEMPERATURE_TOO_HIGH t])
  else acc.

Definition check_humidity (h : float) (acc : bool * list alert_section)
  : bool * list alert_section :=
  if (h <? hum_min SULCATA_ENV - 10)%float
  then (true, snd acc ++ [HUMIDITY_TOO_LOW h])
  else if (hum_max SULCATA_ENV + 15 <? h)%float
  then (true, snd acc ++ [HUMIDITY_TOO_HIGH h])
  else acc.

Definition alert_check (t h : float) : bool * list alert_section :=
  check_humidity h (check_temperature t (false, [])).

Definition cooling_down (current_time : float) (st : state) : bool :=
  (current_time - last_alert_time st <? ALERT_COOLDOWN)%float.

(** A call of [check_conditions_and_alert] run from its first line to
    its last with no other handler in between. *)
Definition check_conditions_and_alert (t h : float) (current_time : float)
  (d : dispatch) (st : state) : state :=
  if no_alert_channel st || cooling_down current_time st then st
  else
    let '(alert_needed, alert_message_parts) := alert_check t h in
    if alert_needed then
      match d, ALERT_CHANNEL_ID st with
      | Delivered, Some id =>
          let st1 := logger INFO AlertSent st in
          mkState (sensor_data st1) (ALERT_CHANNEL_ID st1) current_time
                  (data_file st1) (log st1)
                  (outbox st1 ++ [(id, alert_message_parts)])
      | Dispatch_raises, _ => logger ERROR AlertError st
      | _, _ => st
      end
    else st.

(** The coroutine has one suspension point, [await channel.send]: other
    handlers run while the send is on its way, and [last_alert_time] is
    assigned once it has returned.  An alert on its way holds the locals
    of its call and what the send will come to. *)
Record awaiting_send : Type := mkAwaiting {
  to_channel : Z;
  alert_message : list alert_section;
  checked_at : float;
  send_outcome : dispatch
}.

(** The call up to [await channel.send], when it gets there: no global
    is assigned on the way. *)
Definition begin_check (t h : float) (current_time : float) (d : dispatch)
  (st : state) : option awaiting_send :=
  if no_alert_channel st || cooling_down current_time st then None
  else
    let '(alert_needed, alert_message_parts) := alert_check t h in
    if alert_needed then
      match d, ALERT_CHANNEL_ID st with
      | Channel_not_found, _ | _, None => None
      | _, Some id => Some (mkAwaiting id alert_message_parts current_time d)
      end
    else None.

(** The rest of the call, run on the globals as they are when the send
    returns or raises. *)
Definition end_check (a : awaiting_send) (st : state) : state :=
  match send_outcome a with
  | Delivered =>
      let st1 := logger INFO AlertSent st in
      mkState (sensor_data st1) (ALERT_CHANNEL_ID st1) (checked_at a)
              (data_file st1) (log st1)
              (outbox st1 ++ [(to_channel a, alert_message a)])
  | Dispatch_raises => logger ERROR AlertError st
  | Channel_not_found => st
  end.

Inductive request_body : Type :=
| Invalid_JSON
| Body (data : json).

Inductive tortoise_flag : Type := ok | warning.

Inductive response : Type :=
| Data_received (temp_flag hum_flag : tortoise_flag)
| HTTPException (status_code : Z).

(** What one call of [/update] reads from outside the program. *)
Record update_input : Type := mkUpdate {
  body : request_body;
  now : Timestamp;
  current_time : float;
  alert_dispatch : dispatch;
  file_write : write_outcome
}.

(** The loop copying the extra fields of the payload into the entry. *)
Fixpoint add_extra_fields (items : list (string * json))
  (acc : list (string * json)) : list (string * json) :=
  match items with
  | [] => acc
  | (key, v) :: rest =>
      if negb (core_key key || dict_mem key acc)
      then add_extra_fields rest (acc ++ [(key, v)])
      else add_extra_fields rest acc
  end.

(** The entry built from a payload; [inl status] is the
    [HTTPException] the check of the required fields raises,
    [inr None] any other exception. *)
Definition build_entry (data : json) (now : Timestamp)
  : Z + option reading :=
  match data with
  | JObj fields =>
      if negb (dict_mem "temp" fields) || negb (dict_mem "hum" fields)
      then inl 400
      else
        match dict_get "temp" fields, dict_get "hum" fields with
        | Some tv, Some hv =>
            match py_float tv, py_float hv with
            | Some t, Some h =>
                inr (Some (mkReading t h now (add_extra_fields fields [])))
            | _, _ => inr None
            end
        | _, _ => inr None
        end
  | _ => inr None
  end.

Definition in_band (lo x hi : float) : tortoise_flag :=
  if ((lo <=? x) && (x <=? hi))%float then ok else warning.

Definition update_data (i : update_input) (st : state) : state * response :=
  match body i with
  | Invalid_JSON => (st, HTTPException 400)
  | Body data =>
      match build_entry data (now i) with
      | inr (Some entry) =>
          let st1 := set_sensor_data st (sensor_data st ++ [entry]) in
          let st2 :=
            if MAX_DATA_POINTS <? Py.len (sensor_data st1)
            then set_sensor_data st1
                   (Py.slice_from (- MAX_DATA_POINTS) (sensor_data st1))
            else st1 in
          let st3 :=
            if Py.len (sensor_data st2) mod 10 =? 0
            then save_sensor_data (file_write i) st2 else st2 in
          let st4 := logger INFO (Received (temp entry) (hum entry)) st3 in
          let st5 := check_conditions_and_alert (temp entry) (hum entry)
                       (current_time i) (alert_dispatch i) st4 in
          (st5, Data_received
                  (in_band (temp_ideal_min SULCATA_ENV) (temp entry)
                           (temp_ideal_max SULCATA_ENV))
                  (in_band (hum_min SULCATA_ENV) (hum entry)
                           (hum_max SULCATA_ENV)))
      | inl _ (* raised inside the [try]: the last handler takes it too *)
      | inr None => (logger ERROR UpdateError st, HTTPException 500)
      end
  end.

(** What the handler of [GET /data] comes to: the list it returns under
    ["data"], or the [TypeError] of [-limit] when [limit] is [None]. *)
Inductive handler_result : Type :=
| Returns (result : list json)
| Raises_TypeError.

(** The handler [get_data], up to its [return]. *)
Definition get_data (hours limit : option Z) (now : Timestamp) (st : state)
  : handler_result :=
  match sensor_data st with
  | [] => Returns []
  | data =>
      let data :=
        match hours with
        | Some h =>
            if h =? 0 then data
            else
              let cutoff := Time.minus_hours now h in
              filter (fun entry => Time.geb (Time.value (time entry)) cutoff) data
        | None => data
        end in
      match limit with
      | Some l => Returns (map encode_entry (Py.slice_from (- l) data))
      | None => Raises_TypeError
      end
  end.

(** What the client of [GET /data] is answered. *)
Inductive data_response : Type :=
| Data (result : list json)
| Internal_Server_Error.

(** [GET /data] as FastAPI serves it: the value the handler returns is
    rendered with [json.dumps(..., allow_nan=False)], and an exception
    of the handler or of the rendering is answered 500. *)
Definition GET_data (hours limit : option Z) (now : Timestamp) (st : state)
  : data_response :=
  match get_data hours limit now st with
  | Returns result =>
      if forallb json_compliant result then Data result
      else Internal_Server_Error
  | Raises_TypeError => Internal_Server_Error
  end.

(** A run of [/update] calls, oldest first, with the response of each. *)
Fixpoint run_updates (inputs : list update_input) (st : state)
  : state * list response :=
  match inputs with
  | [] => (st, [])
  | i :: rest =>
      let '(st1, r) := update_data i st in
      let '(st2, rs) := run_updates rest st1 in
      (st2, r :: rs)
  end.

(** ** Vocabulary of the statements *)

Definition is_temperature_section (s : alert_section) : bool :=
  match s with
  | TEMPERATURE_TOO_LOW _ | TEMPERATURE_TOO_HIGH _ => true
  | _ => false
  end.

Definition is_humidity_section (s : alert_section) : bool :=
  match s with
  | HUMIDITY_TOO_LOW _ | HUMIDITY_TOO_HIGH _ => true
  | _ => false
  end.

(** A reading is alert-worthy for its temperature (humidity) when the
    alert message carries a temperature (humidity) section, and
    alert-worthy when [alert_needed] is set. *)
Definition temperature_alert (t h : float) : bool :=
  existsb is_temperature_section (snd (alert_check t h)).

Definition humidity_alert (t h : float) : bool :=
  existsb is_humidity_section (snd (alert_check t h)).

Definition alert_worthy (t h : float) : bool := fst (alert_check t h).

(** One evaluation of a reading: its values, [time.time()] and the
    answer of the Discord client. *)
Record evaluation : Type := mkEvaluation {
  ev_temp : float;
  ev_hum : float;
  ev_time : float;
  ev_dispatch : dispatch
}.

(** An evaluation that ends before anything else runs. *)
Definition evaluate (e : evaluation) (st : state) : state :=
  check_conditions_and_alert (ev_temp e) (ev_hum e) (ev_time e)
                             (ev_dispatch e) st.

Definition is_delivered (d : dispatch) : bool :=
  match d with Delivered => true | _ => false end.

(** The evaluation reaches [channel.send]: a channel is set, the
    cooldown is over, the reading is alert-worthy and the channel is in
    the client's cache. *)
Definition dispatches (e : evaluation) (st : state) : bool :=
  negb (no_alert_channel st) && negb (cooling_down (ev_time e) st)
  && alert_worthy (ev_temp e) (ev_hum e)
  && match ev_dispatch e with Channel_not_found => false | _ => true end.

(** The evaluation delivers an alert. *)
Definition delivers (e : evaluation) (st : state) : bool :=
  dispatches e st && is_delivered (ev_dispatch e).

(** The times at which a run of evaluations delivers an alert, when
    each evaluation ends before the next begins. *)
Fixpoint delivery_times (evs : list evaluation) (st : state) : list float :=
  match evs with
  | [] => []
  | e :: rest =>
      (if delivers e st then [ev_time e] else [])
      ++ delivery_times rest (evaluate e st)
  end.

(** Evaluations one after the other, each ended before the next
    begins. *)
Fixpoint run_evaluations (evs : list evaluation) (st : state) : state :=
  match evs with
  | [] => st
  | e :: rest => run_evaluations rest (evaluate e st)
  end.

(** The process between two turns of the event loop: the globals and
    the alerts whose send is on its way, oldest first.  [alerted_at]
    keeps the [current_time] of the calls whose alert was delivered, in
    the order of delivery. *)
Record server : Type := mkServer {
  globals : state;
  in_flight : list awaiting_send;
  alerted_at : list float
}.

(** A turn of the event loop: a call of [check_conditions_and_alert]
    runs to its [await] or to its end, or the send in flight at position
    [k] returns and its call runs to its end. *)
Inductive step : Type :=
| Evaluate (e : evaluation)
| Send_returns (k : nat).

Definition run_step (s : step) (sv : server) : server :=
  match s with
  | Evaluate e =>
      match begin_check (ev_temp e) (ev_hum e) (ev_time e) (ev_dispatch e)
                        (globals sv) with
      | Some a => mkServer (globals sv) (in_flight sv ++ [a]) (alerted_at sv)
      | None => sv
      end
  | Send_returns k =>
      match nth_error (in_flight sv) k with
      | Some a =>
          mkServer (end_check a (globals sv))
                   (firstn k (in_flight sv) ++ skipn (S k) (in_flight sv))
                   (alerted_at sv
                    ++ (if is_delivered (send_outcome a)
                        then [checked_at a] else []))
      | None => sv
      end
  end.

Fixpoint run_steps (steps : list step) (sv : server) : server :=
  match steps with
  | [] => sv
  | s :: rest => run_steps rest (run_step s sv)
  end.

(** The schedule on which no evaluation begins while a send is on its
    way: each is followed by the return of its send, if it has one. *)
Definition one_after_the_other (evs : list evaluation) : list step :=
  flat_map (fun e => [Evaluate e; Send_returns 0%nat]) evs.

Definition in_turn (evs : list evaluation) (st : state) : server :=
  run_steps (one_after_the_other evs) (mkServer st [] []).

(** The schedule on which the second evaluation begins while the send
    of the first is on its way. *)
Definition overlapping (e1 e2 : evaluation) (st : state) : server :=
  run_steps [Evaluate e1; Evaluate e2; Send_returns 0%nat; Send_returns 0%nat]
            (mkServer st [] []).

(** No time of the list is closer than the cooldown to the one before
    it, [prev] standing before the first. *)
Fixpoint spaced (prev : float) (times : list float) : Prop :=
  match times with
  | [] => True
  | t :: rest => (t - prev <? ALERT_COOLDOWN)%float = false /\ spaced t rest
  end.

(** The entry a call of [/update] appends, if it appends one, and the
    entries a run of calls appends, oldest first. *)
Definition entry_of (i : update_input) : option reading :=
  match body i with
  | Body data =>
      match build_entry data (now i) with
      | inr (Some entry) => Some entry
      | _ => None
      end
  | Invalid_JSON => None
  end.

Definition appended (inputs : list update_input) : list reading :=
  flat_map (fun i => match entry_of i with Some e => [e] | None => [] end)
           inputs.

(** The last [k] elements of a list, in order. *)
Definition last_n {A : Type} (k : Z) (l : list A) : list A :=
  skipn (List.length l - Z.to_nat k) l.

Definition client_error (r : response) : bool :=
  match r with
  | HTTPException code => (400 <=? code) && (code <? 500)
  | Data_received _ _ => false
  end.

Definition is_error (r : response) : bool :=
  match r with
  | HTTPException _ => true
  | Data_received _ _ => false
  end.

(** A payload object lacks a required field; a required field holds a
    value [float] rejects. *)
Definition missing_field (fields : list (string * json)) : Prop :=
  dict_mem "temp" fields = false \/ dict_mem "hum" fields = false.

Definition non_numeric_field (fields : list (string * json)) : Prop :=
  exists v,
    (dict_get "temp" fields = Some v \/ dict_get "hum" fields = Some v)
    /\ py_float v = None.

(** The readings of the store that pass the time filter of [/data]. *)
Definition time_filter (hours : option Z) (now : Timestamp)
  (data : list reading) : list reading :=
  match hours with
  | Some h =>
      if h =? 0 then data
      else filter (fun r => Time.geb (Time.value (time r))
                                     (Time.minus_hours now h)) data
  | None => data
  end.

Definition sample_reading (t : float) (minute_of_hour : Z) : reading :=
  mkReading t 50 (mkTimestamp 2024 3 1 12 minute_of_hour 0 0 0) [].

Definition sample_update (payload : json) : update_input :=
  mkUpdate (Body payload) (mkTimestamp 2024 3 1 12 0 0 0 0) 1709294400
           Delivered Written.

(** An entry as [update_data] builds it: a timestamp with fields in
    range, and no extra field under a key of the entry itself. *)
Definition storable (r : reading) : Prop :=
  Time.valid (time r) = true
  /\ forallb (fun kv => negb (core_key (fst kv))) (extra r) = true.



(** The frame [!plot_rolling] smooths: the readings of the last [hours]
    hours. *)
Definition plot_frame (now : Timestamp) (hours : Z) (st : state)
  : list reading :=
  filter (fun r => Time.geb (Time.value (time r)) (Time.minus_hours now hours))
         (sensor_data st).

Definition finite_reading (r : reading) : bool :=
  PrimFloat.is_finite (temp r) && PrimFloat.is_finite (hum r).

(** JSON can spell the reading: its temperature and humidity are finite
    and no extra field holds a NaN or an infinity. *)
Definition spellable (r : reading) : bool :=
  finite_reading r
  && forallb (fun kv => json_compliant (snd kv)) (extra r).

(** ** The other commands and the life cycle *)

(** [!temp] *)
Inductive temp_reply : Type :=
| Temp_no_data_available_yet
| Weather_Station_Report (as_of : Timestamp) (t h : float).

Definition send_temp (st : state) : temp_reply :=
  match latest (sensor_data st) with
  | None => Temp_no_data_available_yet
  | Some r => Weather_Station_Report (time r) (temp r) (hum r)
  end.

(** [!plot]: the frame handed to the renderer, or the message sent
    instead. *)
Inductive weather_plot_reply : Type :=
| Plot_no_data_available
| Please_specify_a_positive_number_of_hours
| No_data_for_the_last (hours : Z)
| Weather_plot (hours : Z) (df : list reading).

Definition send_plot (now : Timestamp) (hours : Z) (st : state)
  : weather_plot_reply :=
  match sensor_data st with
  | [] => Plot_no_data_available
  | data =>
      if hours <=? 0 then Please_specify_a_positive_number_of_hours
      else
        let cutoff_time := Time.minus_hours now hours in
        let df := filter (fun r => Time.geb (Time.value (time r)) cutoff_time) data in
        if Py.len df =? 0 then No_data_for_the_last hours
        else Weather_plot hours df
  end.

(** [!plot_savgol] up to the call of [scipy.signal.savgol_filter]: the
    message sent instead, or the window, the order and the frame the
    filter is called with.  The filter and the rendering are scipy's and
    matplotlib's. *)
Inductive savgol_reply : Type :=
| Savgol_no_data_available
| Savgol_not_enough_data (hours window : Z)
| Savgol_filter_called (window poly : Z) (df : list reading).

Definition send_plot_savgol (now : Timestamp) (hours window poly : Z)
  (st : state) : savgol_reply :=
  match sensor_data st with
  | [] => Savgol_no_data_available
  | data =>
      let window := if window mod 2 =? 0 then window + 1 else window in
      let cutoff_time := Time.minus_hours now hours in
      let df := filter (fun r => Time.geb (Time.value (time r)) cutoff_time) data in
      if (Py.len df =? 0) || (Py.len df <=? window)
      then Savgol_not_enough_data hours window
      else Savgol_filter_called window poly
             (Pandas.sort_values (fun r => Time.value (time r)) df)
  end.

(** pandas reductions of a float column, which skip NaN and give NaN
    when nothing is left. *)
Module Series.

Definition dropna (col : list float) : list float :=
  filter (fun x => negb (PrimFloat.is_nan x)) col.

Definition min (col : list float) : float :=
  match dropna col with
  | [] => PrimFloat.nan
  | x :: rest =>
      fold_left (fun m y => if PrimFloat.ltb y m then y else m) rest x
  end.

Definition max (col : list float) : float :=
  match dropna col with
  | [] => PrimFloat.nan
  | x :: rest =>
      fold_left (fun m y => if PrimFloat.ltb m y then y else m) rest x
  end.

(** The sum runs left to right; numpy adds pairwise, which moves the
    last digits of the value. *)
Definition mean (col : list float) : float :=
  match dropna col with
  | [] => PrimFloat.nan
  | vals =>
      PrimFloat.div (fold_left PrimFloat.add vals PrimFloat.zero)
                    (PrimFloat.of_uint63 (Uint63.of_Z (Py.len vals)))
  end.

End Series.

(** [!stats] *)
Inductive stats_reply : Type :=
| Stats_no_data_available_yet
| Stats_no_data_for_the_last (hours : Z)
| Weather_Statistics (hours : Z) (t_min t_max t_avg h_min h_max h_avg : float).

Definition send_stats (now : Timestamp) (hours : Z) (st : state) : stats_reply :=
  match sensor_data st with
  | [] => Stats_no_data_available_yet
  | data =>
      let cutoff_time := Time.minus_hours now hours in
      let df := filter (fun r => Time.geb (Time.value (time r)) cutoff_time) data in
      if Py.len df =? 0 then Stats_no_data_for_the_last hours
      else
        Weather_Statistics hours
          (Series.min (map temp df)) (Series.max (map temp df))
          (Series.mean (map temp df))
          (Series.min (map hum df)) (Series.max (map hum df))
          (Series.mean (map hum df))
  end.

(** The last [logger.info] line of the two life-cycle handlers, given
    beside the state they leave. *)
Inductive lifecycle_line : Type :=
| Server_and_bot_started
| Server_shutting_down_data_saved.

(** [startup_event]; the task it creates starts the Discord client and
    touches none of the globals. *)
Definition startup_event (st : state) : state * lifecycle_line :=
  (load_sensor_data st, Server_and_bot_started).

Definition shutdown_event (w : write_outcome) (st : state)
  : state * lifecycle_line :=
  (save_sensor_data w st, Server_shutting_down_data_saved).

(** The module run as a script on the data file [f]: the import, the
    load of [__main__], then the start-up handler under uvicorn. *)
Definition main (f : file) : state :=
  fst (startup_event (load_sensor_data (initial_state f))).

(** ** Vocabulary of the further statements *)

(** What a fresh process finds in the data file [f]. *)
Definition recovered (f : file) : list reading :=
  sensor_data (load_sensor_data (initial_state f)).

Definition time_key (r : reading) : Z := Time.value (time r).

(** The clock of a run of calls never goes back. *)
Definition clock_ordered (inputs : list update_input) : Prop :=
  StronglySorted Z.le (map (fun i => Time.value (now i)) inputs).

Definition chronological (data : list reading) : Prop :=
  StronglySorted Z.le (map time_key data).

(** Chronological, and no two readings at the same instant. *)
Definition strictly_chronological (data : list reading) : Prop :=
  StronglySorted Z.lt (map time_key data).

Definition status_flag_temp (s : temp_status) : tortoise_flag :=
  match s with Temp_Perfect => ok | _ => warning end.

Definition status_flag_hum (s : hum_status) : tortoise_flag :=
  match s with Hum_Perfect => ok | _ => warning end.

(** What the periodic save keeps true of the store and the file. *)
Definition behind_by_less_than_ten (st : state) : Prop :=
  Forall storable (sensor_data st)
  /\ Py.len (sensor_data st) <= MAX_DATA_POINTS
  /\ exists recent,
       sensor_data st = recovered (data_file st) ++ recent
       /\ Py.len recent <= Py.len (sensor_data st) mod 10.

(** * Theorems *)

(** ** Order of binary64 values

    [<?] and [<=?] on floats are decided on the sign, exponent and
    mantissa of their arguments; the lemmas below are what the
    classification proofs need of that order. *)

Local Open Scope float_scope.

Ltac cmp_cases :=
  repeat match goal with
  | |- context [Z.compare ?a ?b] => destruct (Z.compare_spec a b)
  | H : context [Z.compare ?a ?b] |- _ => destruct (Z.compare_spec a b)
  | |- context [PosDef.Pos.compare_cont Eq ?a ?b] =>
      change (PosDef.Pos.compare_cont Eq a b) with (Pos.compare a b) in *;
      destruct (Pos.compare_spec a b)
  | H : context [PosDef.Pos.compare_cont Eq ?a ?b] |- _ =>
      change (PosDef.Pos.compare_cont Eq a b) with (Pos.compare a b) in *;
      destruct (Pos.compare_spec a b)
  end.

Ltac sf_order :=
  unfold SFltb, SFleb, SFcompare;
  repeat match goal with
         | x : spec_float |- _ => destruct x as [[|]|[|]| |[|] ? ?]
         end;
  intros; cmp_cases; subst; simpl in *;
  try discriminate; try reflexivity; try lia.

Lemma SFltb_leb_trans a b c :
  SFltb a b = true -> SFleb b c = true -> SFltb a c = true.
Proof. sf_order. Qed.

Lemma SFleb_ltb_trans a b c :
  SFleb a b = true -> SFltb b c = true -> SFltb a c = true.
Proof. sf_order. Qed.

Lemma SFleb_trans a b c :
  SFleb a b = true -> SFleb b c = true -> SFleb a c = true.
Proof. sf_order. Qed.

Lemma SFltb_irrefl a : SFltb a a = false.
Proof. sf_order. Qed.

Lemma SFltb_leb a b : SFltb a b = true -> SFleb a b = true.
Proof. sf_order. Qed.

Lemma ltb_leb_trans x y z : (x <? y) = true -> (y <=? z) = true -> (x <? z) = true.
Proof. rewrite !FloatAxioms.ltb_spec, FloatAxioms.leb_spec. apply SFltb_leb_trans. Qed.

Lemma leb_ltb_trans x y z : (x <=? y) = true -> (y <? z) = true -> (x <? z) = true.
Proof. rewrite !FloatAxioms.ltb_spec, FloatAxioms.leb_spec. apply SFleb_ltb_trans. Qed.

Lemma leb_trans x y z : (x <=? y) = true -> (y <=? z) = true -> (x <=? z) = true.
Proof. rewrite !FloatAxioms.leb_spec. apply SFleb_trans. Qed.

Lemma ltb_irrefl x : (x <? x) = false.
Proof. rewrite FloatAxioms.ltb_spec. apply SFltb_irrefl. Qed.

Lemma ltb_leb x y : (x <? y) = true -> (x <=? y) = true.
Proof. rewrite FloatAxioms.ltb_spec, FloatAxioms.leb_spec. apply SFltb_leb. Qed.

(** [x < y <= x] and [x <= y < x] do not happen. *)
Lemma ltb_leb_false x y : (x <? y) = true -> (y <=? x) = true -> False.
Proof.
  intros H1 H2. pose proof (ltb_leb_trans _ _ _ H1 H2) as H.
  rewrite ltb_irrefl in H. discriminate.
Qed.

(** A chain [x < a <= b <= x] (or with [b < x]) does not happen either:
    this is how a reading below one threshold is kept out of the bands
    above the next. *)
Lemma ltb_chain_false x a b :
  (x <? a) = true -> (a <=? b) = true -> (b <=? x) = true -> False.
Proof.
  intros H1 H2 H3. eapply ltb_leb_false; [ | exact H3 ].
  eapply ltb_leb_trans; eassumption.
Qed.

(** ** Status classification *)

Lemma thresholds_ordered :
  (temp_min SULCATA_ENV <=? temp_ideal_min SULCATA_ENV) = true
  /\ (temp_ideal_min SULCATA_ENV <=? temp_ideal_max SULCATA_ENV) = true
  /\ (temp_ideal_max SULCATA_ENV <=? temp_max SULCATA_ENV) = true.
Proof. repeat split; reflexivity. Qed.

(** The message of [!sulcata_status] by the range of the temperature. *)
Lemma temperature_status_by_range :
  (forall t,
      ((t <? 18) = true -> temperature_status t = TOO_COLD)
      /\ ((18 <=? t) = true -> (t <? 27) = true -> temperature_status t = Too_Cool)
      /\ ((27 <=? t) = true -> (t <=? 35) = true -> temperature_status t = Temp_Perfect)
      /\ ((35 <? t) = true -> (t <=? 40) = true -> temperature_status t = Too_Warm)
      /\ ((40 <? t) = true -> temperature_status t = TOO_HOT))
  /\ temperature_status 30.0 = Temp_Perfect
  /\ temperature_status 15.0 = TOO_COLD
  /\ temperature_status 41.0 = TOO_HOT.
Proof.
  split; [ | repeat split; reflexivity ].
  intros t. unfold temperature_status. cbn [temp_min temp_ideal_min temp_ideal_max temp_max SULCATA_ENV].
  assert (H1827 : (18 <=? 27) = true) by reflexivity.
  assert (H2735 : (27 <=? 35) = true) by reflexivity.
  assert (H3540 : (35 <=? 40) = true) by reflexivity.
  assert (H1835 : (18 <=? 35) = true) by reflexivity.
  assert (H1840 : (18 <=? 40) = true) by reflexivity.
  assert (H2740 : (27 <=? 40) = true) by reflexivity.
  repeat split.
  - intros ->. reflexivity.
  - intros Hlo Hhi.
    destruct (t <? 18) eqn:E1; [ exfalso; eapply ltb_leb_false; eassumption | ].
    rewrite Hhi. reflexivity.
  - intros Hlo Hhi.
    destruct (t <? 18) eqn:E1;
      [ exfalso; eapply (ltb_chain_false t 18 27); eassumption | ].
    destruct (t <? 27) eqn:E2; [ exfalso; eapply ltb_leb_false; eassumption | ].
    rewrite Hhi. reflexivity.
  - intros Hlo Hhi.
    destruct (t <? 18) eqn:E1;
      [ exfalso; eapply (ltb_chain_false t 18 35); try eassumption;
        apply ltb_leb; assumption | ].
    destruct (t <? 27) eqn:E2;
      [ exfalso; eapply (ltb_chain_false t 27 35); try eassumption;
        apply ltb_leb; assumption | ].
    destruct (t <=? 35) eqn:E3; [ exfalso; eapply ltb_leb_false; eassumption | ].
    rewrite Hhi. reflexivity.
  - intros Hlo.
    destruct (t <? 18) eqn:E1;
      [ exfalso; eapply (ltb_chain_false t 18 40); try eassumption;
        apply ltb_leb; assumption | ].
    destruct (t <? 27) eqn:E2;
      [ exfalso; eapply (ltb_chain_false t 27 40); try eassumption;
        apply ltb_leb; assumption | ].
    destruct (t <=? 35) eqn:E3;
      [ exfalso; eapply ltb_leb_false; [ exact Hlo | ];
        eapply (leb_trans t 35 40); eassumption | ].
    destruct (t <=? 40) eqn:E4; [ exfalso; eapply ltb_leb_false; eassumption | ].
    reflexivity.
Qed.

Lemma SFleb_total a b :
  SFeqb a a = true -> SFeqb b b = true -> SFltb a b = false -> SFleb b a = true.
Proof. unfold SFeqb. sf_order. Qed.

(** Off NaN the order is total. *)
Lemma not_ltb_leb x y :
  PrimFloat.is_nan x = false -> PrimFloat.is_nan y = false ->
  (x <? y) = false -> (y <=? x) = true.
Proof.
  unfold PrimFloat.is_nan. rewrite !negb_false_iff, !FloatAxioms.eqb_spec,
    FloatAxioms.ltb_spec, FloatAxioms.leb_spec.
  apply SFleb_total.
Qed.

Lemma not_leb_ltb x y :
  PrimFloat.is_nan x = false -> PrimFloat.is_nan y = false ->
  (x <=? y) = false -> (y <? x) = true.
Proof.
  unfold PrimFloat.is_nan. rewrite !negb_false_iff, !FloatAxioms.eqb_spec,
    FloatAxioms.ltb_spec, FloatAxioms.leb_spec.
  unfold SFeqb. generalize (Prim2SF x) (Prim2SF y). intros a b. sf_order.
Qed.

(** Every temperature that is a number lies in one of the five ranges. *)
Lemma temperature_ranges_cover t :
  PrimFloat.is_nan t = false ->
  (t <? 18) = true
  \/ ((18 <=? t) = true /\ (t <? 27) = true)
  \/ ((27 <=? t) = true /\ (t <=? 35) = true)
  \/ ((35 <? t) = true /\ (t <=? 40) = true)
  \/ (40 <? t) = true.
Proof.
  intros Hn.
  destruct (t <? 18) eqn:E1; [ now left | right ].
  apply not_ltb_leb in E1; [ | assumption | reflexivity ].
  destruct (t <? 27) eqn:E2; [ now left | right ].
  apply not_ltb_leb in E2; [ | assumption | reflexivity ].
  destruct (t <=? 35) eqn:E3; [ now left | right ].
  apply not_leb_ltb in E3; [ | assumption | reflexivity ].
  destruct (t <=? 40) eqn:E4; [ now left | right ].
  apply not_leb_ltb in E4; [ | assumption | reflexivity ].
  assumption.
Qed.

(** C6.  [temperature_status] puts every temperature in one of the five
    bands, cut at 18, 27, 35 and 40 with the boundary on the safe side:
    below 18 is too cold, from 18 and below 27 is cool, from 27 to 35 is
    ideal, above 35 to 40 is warm, above 40 is too hot.  Every
    temperature that is a number lies in one of the five ranges; 30.0
    is ideal, 15.0 too cold and 41.0 too hot. *)
Theorem temperature_status_bands :
  (forall t,
      ((t <? 18) = true -> temperature_status t = TOO_COLD)
      /\ ((18 <=? t) = true -> (t <? 27) = true -> temperature_status t = Too_Cool)
      /\ ((27 <=? t) = true -> (t <=? 35) = true -> temperature_status t = Temp_Perfect)
      /\ ((35 <? t) = true -> (t <=? 40) = true -> temperature_status t = Too_Warm)
      /\ ((40 <? t) = true -> temperature_status t = TOO_HOT))
  /\ (forall t,
         PrimFloat.is_nan t = false ->
         (t <? 18) = true
         \/ ((18 <=? t) = true /\ (t <? 27) = true)
         \/ ((27 <=? t) = true /\ (t <=? 35) = true)
         \/ ((35 <? t) = true /\ (t <=? 40) = true)
         \/ (40 <? t) = true)
  /\ temperature_status 30.0 = Temp_Perfect
  /\ temperature_status 15.0 = TOO_COLD
  /\ temperature_status 41.0 = TOO_HOT.
Proof.
  split; [ exact (proj1 temperature_status_by_range) | ].
  split; [ exact temperature_ranges_cover | ].
  repeat split; reflexivity.
Qed.

Lemma temperature_status_bands_witness :
  temperature_status 18 = Too_Cool /\ temperature_status 35 = Temp_Perfect
  /\ temperature_status 40 = Too_Warm.
Proof.
  split; [ | split ].
  - apply (proj1 temperature_status_bands 18); reflexivity.
  - apply (proj1 temperature_status_bands 35); reflexivity.
  - apply (proj1 temperature_status_bands 40); reflexivity.
Defined.

(** ** Alert-worthiness *)

Lemma alert_margins :
  hum_min SULCATA_ENV - 10 = 30 /\ hum_max SULCATA_ENV + 15 = 75
  /\ temp_min SULCATA_ENV = 18 /\ temp_max SULCATA_ENV = 40.
Proof. repeat split; reflexivity. Qed.

(** C5.  A reading is alert-worthy for its temperature exactly when the
    temperature is below [temp_min] (18.0) or above [temp_max] (40.0),
    and for its humidity exactly when the humidity is more than 10 below
    [hum_min] (below 30.0) or more than 15 above [hum_max] (above 75.0);
    [alert_needed] is set exactly when one of the two holds. *)
Theorem alert_worthy_iff (t h : float) :
  (temperature_alert t h = true <-> (t <? 18) = true \/ (40 <? t) = true)
  /\ (humidity_alert t h = true
      <-> (h <? hum_min SULCATA_ENV - 10) = true
          \/ (hum_max SULCATA_ENV + 15 <? h) = true)
  /\ (humidity_alert t h = true <-> (h <? 30) = true \/ (75 <? h) = true)
  /\ (alert_worthy t h = true
      <-> temperature_alert t h = true \/ humidity_alert t h = true).
Proof.
  unfold temperature_alert, humidity_alert, alert_worthy, alert_check,
    check_humidity, check_temperature.
  cbn [temp_min temp_max hum_min hum_max SULCATA_ENV].
  change (40 - 10) with 30. change (60 + 15) with 75.
  destruct (t <? 18) eqn:T1; destruct (40 <? t) eqn:T2;
    destruct (h <? 30) eqn:H1; destruct (75 <? h) eqn:H2; cbn;
    repeat split; intros; try discriminate; auto;
    repeat match goal with
           | H : _ \/ _ |- _ => destruct H
           end; try discriminate; auto.
Qed.

Lemma alert_worthy_iff_witness :
  temperature_alert 41 50 = true /\ humidity_alert 28 76 = true.
Proof.
  split.
  - apply (proj1 (alert_worthy_iff 41 50)). right. reflexivity.
  - apply (proj1 (proj2 (proj2 (alert_worthy_iff 28 76)))). right. reflexivity.
Defined.

(** ** Alert dispatch and cooldown *)

Lemma no_alert_channel_false st :
  no_alert_channel st = false -> exists id, ALERT_CHANNEL_ID st = Some id.
Proof.
  unfold no_alert_channel. destruct (ALERT_CHANNEL_ID st) as [id|]; [ eauto | discriminate ].
Qed.

(** What one evaluation does to the outbox, to [last_alert_time] and to
    the alert channel, by whether it delivers. *)
Lemma evaluate_effect e st :
  List.length (outbox (evaluate e st))
  = (List.length (outbox st) + (if delivers e st then 1 else 0))%nat
  /\ last_alert_time (evaluate e st)
     = (if delivers e st then ev_time e else last_alert_time st)
  /\ ALERT_CHANNEL_ID (evaluate e st) = ALERT_CHANNEL_ID st.
Proof.
  unfold evaluate, check_conditions_and_alert, delivers, dispatches, alert_worthy.
  destruct (no_alert_channel st) eqn:Hc; cbn [orb negb andb];
    [ rewrite Nat.add_0_r; auto | ].
  destruct (cooling_down (ev_time e) st) eqn:Hd; cbn [orb negb andb];
    [ rewrite Nat.add_0_r; auto | ].
  destruct (alert_check (ev_temp e) (ev_hum e)) as [needed parts]; cbn [fst].
  destruct needed; cbn [andb]; [ | rewrite Nat.add_0_r; auto ].
  destruct (no_alert_channel_false _ Hc) as [id Hid].
  destruct (ev_dispatch e); rewrite ?Hid; cbn;
    rewrite ?Nat.add_0_r, ?length_app; auto.
Qed.

Lemma evaluate_no_alert_channel e st :
  no_alert_channel (evaluate e st) = no_alert_channel st.
Proof.
  unfold no_alert_channel.
  destruct (evaluate_effect e st) as (_ & _ & ->). reflexivity.
Qed.

Lemma delivery_times_spaced evs :
  forall st, spaced (last_alert_time st) (delivery_times evs st).
Proof.
  induction evs as [|e evs IH]; intros st; cbn [delivery_times]; [ exact I | ].
  destruct (evaluate_effect e st) as (_ & Hlast & _).
  specialize (IH (evaluate e st)). rewrite Hlast in IH.
  destruct (delivers e st) eqn:Hd; cbn [app]; [ | exact IH ].
  split; [ | exact IH ].
  change (cooling_down (ev_time e) st = false).
  unfold delivers, dispatches in Hd.
  destruct (cooling_down (ev_time e) st); [ | reflexivity ].
  cbn in Hd. rewrite andb_false_r in Hd. discriminate.
Qed.

Lemma delivery_times_outbox evs :
  forall st,
    List.length (outbox (run_evaluations evs st))
    = (List.length (outbox st) + List.length (delivery_times evs st))%nat.
Proof.
  induction evs as [|e evs IH]; intros st;
    cbn [delivery_times run_evaluations]; [ cbn; lia | ].
  rewrite IH, length_app.
  destruct (evaluate_effect e st) as (-> & _ & _).
  destruct (delivers e st); cbn; lia.
Qed.

(** C4, as the code has it.  When a reading is alert-worthy, a channel
    is set and the cooldown is over, [last_alert_time] moves to the
    current time if the alert is delivered, and stays as it was if the
    channel is not found or the dispatch raises. *)
Theorem last_alert_time_on_dispatch (t h current : float) (d : dispatch)
  (st : state) :
  alert_worthy t h = true ->
  no_alert_channel st = false ->
  cooling_down current st = false ->
  (d = Delivered ->
   last_alert_time (check_conditions_and_alert t h current d st) = current)
  /\ (d <> Delivered ->
      last_alert_time (check_conditions_and_alert t h current d st)
      = last_alert_time st).
Proof.
  intros Hw Hc Hd.
  destruct (evaluate_effect (mkEvaluation t h current d) st) as (_ & Hlast & _).
  unfold evaluate, delivers, dispatches in Hlast.
  cbn [ev_temp ev_hum ev_time ev_dispatch] in Hlast.
  rewrite Hw, Hc, Hd in Hlast. cbn [negb andb] in Hlast.
  split; intros Hdel.
  - subst d. exact Hlast.
  - destruct d; cbn [is_delivered andb] in Hlast; try exact Hlast. congruence.
Qed.

Lemma last_alert_time_on_dispatch_witness :
  last_alert_time
    (check_conditions_and_alert 41 50 1700000000 Delivered
       (set_alerts 42 (initial_state Missing))) = 1700000000.
Proof.
  apply (last_alert_time_on_dispatch 41 50 1700000000 Delivered
           (set_alerts 42 (initial_state Missing)));
    reflexivity.
Defined.

(** C4 fails as stated: the send raises, and the cooldown timestamp is
    not advanced. *)
Lemma last_alert_time_kept_on_failure :
  alert_worthy 41 50 = true
  /\ no_alert_channel (set_alerts 42 (initial_state Missing)) = false
  /\ cooling_down 1700000000 (set_alerts 42 (initial_state Missing)) = false
  /\ last_alert_time
       (check_conditions_and_alert 41 50 1700000000 Dispatch_raises
          (set_alerts 42 (initial_state Missing))) = 0
  /\ (0 =? 1700000000) = false.
Proof. repeat split; reflexivity. Qed.

(** The call in one piece is the call up to the send followed by its
    rest. *)
Lemma check_in_two_phases t h current d st :
  check_conditions_and_alert t h current d st
  = match begin_check t h current d st with
    | Some a => end_check a st
    | None => st
    end.
Proof.
  unfold check_conditions_and_alert, begin_check, no_alert_channel.
  destruct (ALERT_CHANNEL_ID st) as [id|];
    [ | cbn [orb]; reflexivity ].
  destruct ((id =? 0)%Z || cooling_down current st); [ reflexivity | ].
  destruct (alert_check t h) as [needed parts].
  destruct needed; [ | reflexivity ].
  destruct d; reflexivity.
Qed.

Lemma begin_check_delivers e st :
  match begin_check (ev_temp e) (ev_hum e) (ev_time e) (ev_dispatch e) st with
  | Some a =>
      checked_at a = ev_time e /\ send_outcome a = ev_dispatch e
      /\ is_delivered (ev_dispatch e) = delivers e st
  | None => delivers e st = false
  end.
Proof.
  unfold begin_check, delivers, dispatches, alert_worthy, no_alert_channel.
  destruct (ALERT_CHANNEL_ID st) as [id|]; [ | reflexivity ].
  destruct (id =? 0)%Z; [ reflexivity | ].
  destruct (cooling_down (ev_time e) st); [ reflexivity | ].
  destruct (alert_check (ev_temp e) (ev_hum e)) as [needed parts].
  destruct needed; [ | reflexivity ].
  destruct (ev_dispatch e); cbn; auto.
Qed.

(** An evaluation with the return of its send right behind it comes to
    the call in one piece. *)
Lemma run_steps_in_turn evs :
  forall st times,
    run_steps (one_after_the_other evs) (mkServer st [] times)
    = mkServer (run_evaluations evs st) [] (times ++ delivery_times evs st).
Proof.
  induction evs as [|e evs IH]; intros st times;
    cbn [one_after_the_other flat_map app run_steps run_evaluations delivery_times];
    [ rewrite app_nil_r; reflexivity | ].
  change (flat_map (fun e0 => [Evaluate e0; Send_returns 0%nat]) evs)
    with (one_after_the_other evs).
  assert (E : run_step (Send_returns 0%nat) (run_step (Evaluate e) (mkServer st [] times))
              = mkServer (evaluate e st) []
                         (times ++ (if delivers e st then [ev_time e] else []))).
  { unfold evaluate. rewrite check_in_two_phases.
    pose proof (begin_check_delivers e st) as Hb.
    cbn [run_step globals in_flight alerted_at].
    destruct (begin_check (ev_temp e) (ev_hum e) (ev_time e) (ev_dispatch e) st)
      as [a|].
    - destruct Hb as (Ht & Ho & Hd).
      cbn [app nth_error globals in_flight alerted_at firstn skipn].
      rewrite Ho, Hd, Ht. reflexivity.
    - cbn [nth_error in_flight]. rewrite Hb, app_nil_r. reflexivity. }
  rewrite E, IH, <- app_assoc. reflexivity.
Qed.

(** C3, as the code has it.  The evaluations are taken one after the
    other, none beginning while the send of another is on its way.  Of
    two alert-worthy readings evaluated less than the cooldown apart
    (ten seconds, say) with a channel set, at most one is delivered, and
    exactly one when the cooldown is over at the first and its dispatch
    is delivered; in any such run no delivery is closer than the
    cooldown to the delivery before it, and the outbox grows by the
    deliveries alone.  When the second evaluation begins while the send
    of the first is on its way, [last_alert_time] is not assigned yet
    and both alerts are delivered. *)
Theorem alert_cooldown :
  (forall st e1 e2,
      no_alert_channel st = false ->
      alert_worthy (ev_temp e1) (ev_hum e1) = true ->
      alert_worthy (ev_temp e2) (ev_hum e2) = true ->
      (ev_time e2 - ev_time e1 <? ALERT_COOLDOWN) = true ->
      (List.length (outbox (globals (in_turn [e1; e2] st)))
       <= S (List.length (outbox st)))%nat
      /\ (cooling_down (ev_time e1) st = false ->
          ev_dispatch e1 = Delivered ->
          List.length (outbox (globals (in_turn [e1; e2] st)))
          = S (List.length (outbox st))))
  /\ (forall evs st,
         spaced (last_alert_time st) (alerted_at (in_turn evs st))
         /\ List.length (outbox (globals (in_turn evs st)))
            = (List.length (outbox st)
               + List.length (alerted_at (in_turn evs st)))%nat)
  /\ (forall st e1 e2,
         no_alert_channel st = false ->
         alert_worthy (ev_temp e1) (ev_hum e1) = true ->
         alert_worthy (ev_temp e2) (ev_hum e2) = true ->
         cooling_down (ev_time e1) st = false ->
         cooling_down (ev_time e2) st = false ->
         ev_dispatch e1 = Delivered ->
         ev_dispatch e2 = Delivered ->
         alerted_at (overlapping e1 e2 st) = [ev_time e1; ev_time e2]
         /\ List.length (outbox (globals (overlapping e1 e2 st)))
            = S (S (List.length (outbox st)))
         /\ last_alert_time (globals (overlapping e1 e2 st)) = ev_time e2).
Proof.
  split; [ | split ].
  - intros st e1 e2 Hc Hw1 Hw2 Hnear.
    unfold in_turn. rewrite run_steps_in_turn.
    cbn [globals run_evaluations].
    destruct (evaluate_effect e1 st) as (Hlen1 & Hlast1 & _).
    destruct (evaluate_effect e2 (evaluate e1 st)) as (Hlen2 & _ & _).
    assert (Hskip : delivers e1 st = true -> delivers e2 (evaluate e1 st) = false).
    { intros Hd. rewrite Hd in Hlast1.
      unfold delivers, dispatches, cooling_down. rewrite Hlast1, Hnear.
      rewrite andb_false_r. reflexivity. }
    split.
    + rewrite Hlen2, Hlen1.
      destruct (delivers e1 st); [ rewrite (Hskip eq_refl); lia | ].
      destruct (delivers e2 (evaluate e1 st)); lia.
    + intros Hcool Hdel.
      assert (Hd : delivers e1 st = true).
      { unfold delivers, dispatches. rewrite Hc, Hcool, Hw1, Hdel. reflexivity. }
      rewrite Hlen2, Hlen1, (Hskip Hd), Hd. lia.
  - intros evs st. unfold in_turn. rewrite run_steps_in_turn.
    cbn [globals alerted_at app]. split.
    + apply delivery_times_spaced.
    + apply delivery_times_outbox.
  - intros st e1 e2 Hc Hw1 Hw2 Hc1 Hc2 Hd1 Hd2.
    destruct (no_alert_channel_false _ Hc) as [id Hid].
    assert (B : forall e,
               alert_worthy (ev_temp e) (ev_hum e) = true ->
               cooling_down (ev_time e) st = false ->
               ev_dispatch e = Delivered ->
               begin_check (ev_temp e) (ev_hum e) (ev_time e) (ev_dispatch e) st
               = Some (mkAwaiting id (snd (alert_check (ev_temp e) (ev_hum e)))
                                  (ev_time e) Delivered)).
    { intros e Hw Hcd Hd. unfold begin_check, alert_worthy in *.
      rewrite Hc, Hcd, Hid, Hd. cbn [orb].
      destruct (alert_check (ev_temp e) (ev_hum e)) as [n parts].
      cbn [fst] in Hw. subst n. reflexivity. }
    unfold overlapping.
    cbn [run_steps run_step globals in_flight alerted_at].
    rewrite (B e1 Hw1 Hc1 Hd1).
    cbn [run_steps run_step globals in_flight alerted_at app].
    rewrite (B e2 Hw2 Hc2 Hd2).
    cbn. rewrite !length_app. cbn. repeat split; lia.
Qed.

Lemma alert_cooldown_witness :
  List.length
    (outbox
       (globals
          (in_turn [mkEvaluation 41 50 1700000000 Delivered;
                    mkEvaluation 41 50 1700000010 Delivered]
                   (set_alerts 42 (initial_state Missing))))) = 1%nat.
Proof.
  apply (proj1 alert_cooldown (set_alerts 42 (initial_state Missing))
           (mkEvaluation 41 50 1700000000 Delivered)
           (mkEvaluation 41 50 1700000010 Delivered));
    reflexivity.
Defined.

(** C3 fails as stated: the Discord send raises at both readings, ten
    seconds apart; no alert is delivered and the dispatch is tried
    twice. *)
Lemma two_failed_dispatches_ten_seconds_apart :
  alert_worthy 41 50 = true
  /\ (1700000010 - 1700000000 = 10)
  /\ dispatches (mkEvaluation 41 50 1700000000 Dispatch_raises)
       (set_alerts 42 (initial_state Missing)) = true
  /\ dispatches (mkEvaluation 41 50 1700000010 Dispatch_raises)
       (evaluate (mkEvaluation 41 50 1700000000 Dispatch_raises)
          (set_alerts 42 (initial_state Missing))) = true
  /\ outbox
       (evaluate (mkEvaluation 41 50 1700000010 Dispatch_raises)
          (evaluate (mkEvaluation 41 50 1700000000 Dispatch_raises)
             (set_alerts 42 (initial_state Missing)))) = []
  /\ log
       (evaluate (mkEvaluation 41 50 1700000010 Dispatch_raises)
          (evaluate (mkEvaluation 41 50 1700000000 Dispatch_raises)
             (set_alerts 42 (initial_state Missing))))
     = [(INFO, AlertChannelSet 42); (ERROR, AlertError); (ERROR, AlertError)].
Proof. repeat split; reflexivity. Qed.

(** And with both sends delivered: the second reading is evaluated ten
    seconds after the first, while the send of the first is on its way;
    two alerts are delivered. *)
Lemma two_overlapping_alerts_ten_seconds_apart :
  alerted_at
    (overlapping (mkEvaluation 41 50 1700000000 Delivered)
                 (mkEvaluation 41 50 1700000010 Delivered)
                 (set_alerts 42 (initial_state Missing)))
  = [1700000000; 1700000010]%float
  /\ outbox
       (globals
          (overlapping (mkEvaluation 41 50 1700000000 Delivered)
                       (mkEvaluation 41 50 1700000010 Delivered)
                       (set_alerts 42 (initial_state Missing))))
     = [(42%Z, [TEMPERATURE_TOO_HIGH 41]); (42%Z, [TEMPERATURE_TOO_HIGH 41])].
Proof. split; reflexivity. Qed.


(** ** Retention *)

Local Open Scope Z_scope.

Lemma last_n_all {A} (k : Z) (l : list A) :
  Py.len l <= k -> last_n k l = l.
Proof.
  unfold last_n, Py.len. intros H.
  replace (List.length l - Z.to_nat k)%nat with 0%nat by lia. reflexivity.
Qed.

Lemma last_n_length {A} (k : Z) (l : list A) :
  0 <= k -> Py.len (last_n k l) = Z.min (Py.len l) k.
Proof. unfold last_n, Py.len. intros H. rewrite length_skipn. lia. Qed.

(** [l[-k:]] is the last [k] elements when [k] is positive. *)
Lemma slice_from_last_n {A} (k : Z) (l : list A) :
  0 < k -> Py.slice_from (- k) l = last_n k l.
Proof.
  unfold Py.slice_from, last_n. intros H.
  destruct (- k <? 0) eqn:E; [ | apply Z.ltb_ge in E; lia ].
  f_equal. lia.
Qed.

(** [l[-0:]] is the whole list. *)
Lemma slice_from_zero {A} (l : list A) : Py.slice_from (- 0) l = l.
Proof. reflexivity. Qed.

(** Trimming before an append changes nothing of what a later trim keeps. *)
Lemma last_n_app_last_n {A} (k : Z) (l x : list A) :
  last_n k (last_n k l ++ x) = last_n k (l ++ x).
Proof.
  unfold last_n. set (m := Z.to_nat k).
  destruct (Nat.le_gt_cases (List.length l) m) as [Hle|Hgt].
  - replace (List.length l - m)%nat with 0%nat by lia. reflexivity.
  - rewrite !length_app, length_skipn.
    replace (List.length l - (List.length l - m) + List.length x - m)%nat
      with (List.length x) by lia.
    replace (List.length l + List.length x - m)%nat
      with (List.length x + (List.length l - m))%nat by lia.
    rewrite <- skipn_skipn, (skipn_app (List.length l - m) l x).
    replace (List.length l - m - List.length l)%nat with 0%nat by lia.
    reflexivity.
Qed.

Lemma check_conditions_and_alert_sensor_data t h current d st :
  sensor_data (check_conditions_and_alert t h current d st) = sensor_data st
  /\ data_file (check_conditions_and_alert t h current d st) = data_file st.
Proof.
  unfold check_conditions_and_alert.
  destruct (no_alert_channel st || cooling_down current st); [ auto | ].
  destruct (alert_check t h) as [[|] parts]; [ | auto ].
  destruct d, (ALERT_CHANNEL_ID st); auto.
Qed.

Lemma save_sensor_data_sensor_data w st :
  sensor_data (save_sensor_data w st) = sensor_data st.
Proof. destruct w; reflexivity. Qed.

(** The store after one call: the entry appended and the store trimmed,
    or the store as it was. *)
Lemma update_data_sensor_data i st :
  sensor_data (fst (update_data i st))
  = match entry_of i with
    | Some e =>
        if MAX_DATA_POINTS <? Py.len (sensor_data st ++ [e])
        then Py.slice_from (- MAX_DATA_POINTS) (sensor_data st ++ [e])
        else sensor_data st ++ [e]
    | None => sensor_data st
    end.
Proof.
  unfold update_data, entry_of. destruct (body i) as [|data]; [ reflexivity | ].
  destruct (build_entry data (now i)) as [code|[e|]]; try reflexivity.
  cbn [fst].
  rewrite (proj1 (check_conditions_and_alert_sensor_data _ _ _ _ _)).
  cbn [logger sensor_data set_sensor_data].
  match goal with
  | |- sensor_data (if ?c then save_sensor_data ?w ?s else ?s) = _ =>
      transitivity (sensor_data s);
      [ destruct c; [ apply save_sensor_data_sensor_data | reflexivity ] | ]
  end.
  destruct (MAX_DATA_POINTS <? Py.len (sensor_data st ++ [e])); reflexivity.
Qed.

Lemma update_data_keeps_last_n i st :
  Py.len (sensor_data st) <= MAX_DATA_POINTS ->
  sensor_data (fst (update_data i st))
  = last_n MAX_DATA_POINTS
      (sensor_data st ++ match entry_of i with Some e => [e] | None => [] end).
Proof.
  intros H. rewrite update_data_sensor_data.
  destruct (entry_of i) as [e|].
  - destruct (MAX_DATA_POINTS <? Py.len (sensor_data st ++ [e])) eqn:E.
    + apply slice_from_last_n. reflexivity.
    + apply Z.ltb_ge in E. symmetry. apply last_n_all. exact E.
  - rewrite app_nil_r. symmetry. apply last_n_all. exact H.
Qed.

Lemma run_updates_cons i inputs st :
  fst (run_updates (i :: inputs) st)
  = fst (run_updates inputs (fst (update_data i st))).
Proof.
  cbn [run_updates]. destruct (update_data i st) as [st1 r]. cbn [fst].
  destruct (run_updates inputs st1). reflexivity.
Qed.

(** From a store within the bound, a run of calls leaves the last
    [MAX_DATA_POINTS] of the old entries followed by the appended ones. *)
Lemma run_updates_keeps_last_n inputs :
  forall st,
    Py.len (sensor_data st) <= MAX_DATA_POINTS ->
    sensor_data (fst (run_updates inputs st))
    = last_n MAX_DATA_POINTS (sensor_data st ++ appended inputs).
Proof.
  induction inputs as [|i inputs IH]; intros st H.
  - cbn. rewrite app_nil_r. symmetry. apply last_n_all. exact H.
  - rewrite run_updates_cons, IH.
    + rewrite update_data_keeps_last_n by exact H.
      cbn [appended flat_map]. rewrite last_n_app_last_n, <- app_assoc.
      reflexivity.
    + rewrite update_data_keeps_last_n by exact H.
      rewrite last_n_length by (unfold MAX_DATA_POINTS; lia). lia.
Qed.

Lemma load_sensor_data_bound st :
  Py.len (sensor_data st) <= MAX_DATA_POINTS ->
  Py.len (sensor_data (load_sensor_data st)) <= MAX_DATA_POINTS.
Proof.
  intros H. unfold load_sensor_data, read_data_file.
  destruct (data_file st) as [| |[| | | |[|]| |]]; try exact H;
    try (cbn; unfold MAX_DATA_POINTS; lia).
  destruct (decode_entries items) as [data|]; [ | cbn; unfold MAX_DATA_POINTS; lia ].
  cbn [logger set_sensor_data sensor_data].
  rewrite slice_from_last_n by reflexivity.
  rewrite last_n_length by (unfold MAX_DATA_POINTS; lia). lia.
Qed.

(** C1.  After any sequence of [/update] calls, on a store within the
    bound (as it is on import and after a load), the store holds at most
    [MAX_DATA_POINTS] (10000) readings: the last [MAX_DATA_POINTS] of
    what it held followed by the appended readings.  On a store that
    starts empty these are the last [min n MAX_DATA_POINTS] of the [n]
    appended readings, in the order they were appended. *)
Theorem retention_bound (inputs : list update_input) (st : state) :
  Py.len (sensor_data st) <= MAX_DATA_POINTS ->
  Py.len (sensor_data (fst (run_updates inputs st))) <= MAX_DATA_POINTS
  /\ sensor_data (fst (run_updates inputs st))
     = last_n MAX_DATA_POINTS (sensor_data st ++ appended inputs)
  /\ (sensor_data st = [] ->
      Py.len (sensor_data (fst (run_updates inputs st)))
      = Z.min (Py.len (appended inputs)) MAX_DATA_POINTS
      /\ sensor_data (fst (run_updates inputs st))
         = last_n (Z.min (Py.len (appended inputs)) MAX_DATA_POINTS)
                  (appended inputs)).
Proof.
  intros Hbound.
  pose proof (run_updates_keeps_last_n inputs st Hbound) as Hrun.
  rewrite Hrun. split; [ | split; [ reflexivity | ] ].
  - rewrite last_n_length by (unfold MAX_DATA_POINTS; lia). lia.
  - intros ->. cbn [app].
    rewrite last_n_length by (unfold MAX_DATA_POINTS; lia).
    split; [ reflexivity | ].
    unfold last_n, Py.len. f_equal. lia.
Qed.

Lemma retention_bound_witness :
  sensor_data
    (fst (run_updates
            [sample_update (JObj [("temp"%string, JFloat 28); ("hum"%string, JFloat 50)]);
             sample_update (JObj [("temp"%string, JStr "abc")]);
             sample_update (JObj [("temp"%string, JInt 41); ("hum"%string, JStr "55.5")])]
            (initial_state Missing)))
  = [mkReading 28 50 (mkTimestamp 2024 3 1 12 0 0 0 0) [];
     mkReading 41 55.5 (mkTimestamp 2024 3 1 12 0 0 0 0) []].
Proof.
  apply (proj2 (proj2 (retention_bound
           [sample_update (JObj [("temp"%string, JFloat 28); ("hum"%string, JFloat 50)]);
            sample_update (JObj [("temp"%string, JStr "abc")]);
            sample_update (JObj [("temp"%string, JInt 41); ("hum"%string, JStr "55.5")])]
           (initial_state Missing)
           ltac:(cbn; unfold MAX_DATA_POINTS; lia)))).
  reflexivity.
Defined.

(** ** Rejected payloads *)

Lemma dict_mem_get {V} key (d : list (string * V)) :
  dict_mem key d = true -> exists v, dict_get key d = Some v.
Proof. unfold dict_mem. destruct (dict_get key d); [ eauto | discriminate ]. Qed.

(** A payload object that lacks a required field or holds a value
    [float] rejects builds no entry. *)
Lemma build_entry_rejects fields now :
  missing_field fields \/ non_numeric_field fields ->
  (build_entry (JObj fields) now = inl 400 /\ missing_field fields)
  \/ (build_entry (JObj fields) now = inr None /\ ~ missing_field fields).
Proof.
  unfold build_entry, missing_field.
  destruct (dict_mem "temp" fields) eqn:Mt; cbn [negb orb];
    [ | intros _; left; auto ].
  destruct (dict_mem "hum" fields) eqn:Mh; cbn [negb orb];
    [ | intros _; left; auto ].
  intros [[H|H]|(v & Hv & Hf)]; try discriminate.
  right. split; [ | intros [H|H]; discriminate ].
  destruct (dict_mem_get _ _ Mt) as [tv Htv].
  destruct (dict_mem_get _ _ Mh) as [hv Hhv].
  rewrite Htv, Hhv.
  destruct Hv as [Hv|Hv]; rewrite Hv in *.
  - injection Htv as <-. rewrite Hf. reflexivity.
  - injection Hhv as <-. rewrite Hf. destruct (py_float tv); reflexivity.
Qed.

(** C2, as the code has it.  A payload object that lacks [temp] or
    [hum], or holds under one of them a value [float] rejects, is
    answered with an HTTP error and nothing is stored: the series and
    the data file are as before.  With both fields present the status is
    500, raised by the handler of last resort. *)
Theorem update_data_rejects (i : update_input) (st : state)
  (fields : list (string * json)) :
  body i = Body (JObj fields) ->
  missing_field fields \/ non_numeric_field fields ->
  sensor_data (fst (update_data i st)) = sensor_data st
  /\ data_file (fst (update_data i st)) = data_file st
  /\ outbox (fst (update_data i st)) = outbox st
  /\ is_error (snd (update_data i st)) = true
  /\ (~ missing_field fields ->
      snd (update_data i st) = HTTPException 500).
Proof.
  intros Hbody Hbad. unfold update_data. rewrite Hbody.
  destruct (build_entry_rejects fields (now i) Hbad) as [[-> _]|[-> _]];
    cbn; auto 6.
Qed.

Lemma update_data_rejects_witness :
  sensor_data
    (fst (update_data (sample_update (JObj [("temp"%string, JNull); ("hum"%string, JFloat 50)]))
            (initial_state Missing))) = []
  /\ snd (update_data (sample_update (JObj [("temp"%string, JNull); ("hum"%string, JFloat 50)]))
            (initial_state Missing)) = HTTPException 500.
Proof.
  assert (Hbad : missing_field [("temp"%string, JNull); ("hum"%string, JFloat 50)]
                 \/ non_numeric_field [("temp"%string, JNull); ("hum"%string, JFloat 50)]).
  { right. exists JNull. split; [ left | ]; reflexivity. }
  destruct (update_data_rejects
              (sample_update (JObj [("temp"%string, JNull); ("hum"%string, JFloat 50)]))
              (initial_state Missing) _ eq_refl Hbad)
    as (Hs & _ & _ & _ & H500).
  split; [ exact Hs | ].
  apply H500. intros [H|H]; discriminate.
Defined.

(** C2 fails as stated: a payload whose [temp] is the text [abc] is
    answered with status 500, which is no client error. *)
Lemma non_numeric_temp_is_a_server_error :
  py_float (JStr "abc") = None
  /\ snd (update_data
            (sample_update (JObj [("temp"%string, JStr "abc"); ("hum"%string, JFloat 50)]))
            (initial_state Missing)) = HTTPException 500
  /\ client_error
       (snd (update_data
               (sample_update (JObj [("temp"%string, JStr "abc"); ("hum"%string, JFloat 50)]))
               (initial_state Missing))) = false.
Proof. repeat split; reflexivity. Qed.

(** ** Query *)

Lemma slice_from_length_le {A} (k : Z) (l : list A) :
  0 < k -> Py.len (Py.slice_from (- k) l) <= k.
Proof.
  intros H. rewrite slice_from_last_n by exact H.
  rewrite last_n_length by lia. lia.
Qed.

Lemma time_filter_nil hours now : time_filter hours now [] = [].
Proof. unfold time_filter. destruct hours as [h|]; [ destruct (h =? 0) | ]; reflexivity. Qed.

Lemma get_data_some hours l now st :
  get_data hours (Some l) now st
  = Returns (map encode_entry
               (Py.slice_from (- l) (time_filter hours now (sensor_data st)))).
Proof.
  unfold get_data. destruct (sensor_data st) as [|r data] eqn:E.
  - rewrite time_filter_nil. unfold Py.slice_from. cbn.
    destruct (- l <? 0); rewrite skipn_nil; reflexivity.
  - reflexivity.
Qed.

Lemma json_compliant_entry r : json_compliant (encode_entry r) = spellable r.
Proof.
  unfold encode_entry, spellable, finite_reading. cbn [json_compliant].
  rewrite forallb_app. cbn [forallb snd json_compliant].
  destruct (PrimFloat.is_finite (temp r)), (PrimFloat.is_finite (hum r));
    reflexivity.
Qed.

Lemma json_compliant_entries l :
  forallb json_compliant (map encode_entry l) = forallb spellable l.
Proof.
  induction l as [|r l IH]; cbn [map forallb]; [ reflexivity | ].
  rewrite json_compliant_entry, IH. reflexivity.
Qed.

(** The answer of [GET /data] by the readings the handler returns. *)
Lemma GET_data_some hours l now st :
  GET_data hours (Some l) now st
  = if forallb spellable
         (Py.slice_from (- l) (time_filter hours now (sensor_data st)))
    then Data (map encode_entry
                 (Py.slice_from (- l) (time_filter hours now (sensor_data st))))
    else Internal_Server_Error.
Proof.
  unfold GET_data. rewrite get_data_some, json_compliant_entries. reflexivity.
Qed.

(** C10.  With [limit = 0] the handler of [/data] returns every reading
    that passes the time filter: [data[-0:]] is the whole list.  The
    client is answered with all of them when JSON can spell each (no
    NaN, no infinity among their values), and with a 500 otherwise, as
    for any other limit.  A positive limit bounds the answer, the limit
    0 does not: a store of three readings answers with three. *)
Theorem get_data_limit_zero :
  (forall hours now st,
      get_data hours (Some 0) now st
      = Returns (map encode_entry (time_filter hours now (sensor_data st)))
      /\ GET_data hours (Some 0) now st
         = (if forallb spellable (time_filter hours now (sensor_data st))
            then Data (map encode_entry
                         (time_filter hours now (sensor_data st)))
            else Internal_Server_Error))
  /\ (forall hours l now st result,
         0 < l ->
         GET_data hours (Some l) now st = Data result ->
         Py.len result <= l)
  /\ GET_data None (Some 0) (mkTimestamp 2024 3 1 13 0 0 0 0)
       (set_sensor_data (initial_state Missing)
          [sample_reading 28 0; sample_reading 29 1; sample_reading 30 2])
     = Data (map encode_entry
               [sample_reading 28 0; sample_reading 29 1; sample_reading 30 2]).
Proof.
  split; [ | split ].
  - intros hours now st.
    rewrite GET_data_some, get_data_some, slice_from_zero. split; reflexivity.
  - intros hours l now st result Hl. rewrite GET_data_some.
    destruct (forallb spellable _); [ | discriminate ].
    intros [= <-]. unfold Py.len. rewrite length_map.
    apply slice_from_length_le. exact Hl.
  - reflexivity.
Qed.

Lemma get_data_limit_zero_witness :
  Py.len (map encode_entry [sample_reading 29 1; sample_reading 30 2]) <= 2.
Proof.
  apply (proj1 (proj2 get_data_limit_zero) (Some 24) 2
           (mkTimestamp 2024 3 1 13 0 0 0 0)
           (set_sensor_data (initial_state Missing)
              [sample_reading 28 0; sample_reading 29 1; sample_reading 30 2]));
    [ lia | reflexivity ].
Defined.

(** A store that holds a NaN, put there by [/update]: the handler
    returns its readings and the client is answered 500, with the limit
    0 as with the default one. *)
Lemma nan_reading_is_answered_500 :
  get_data None (Some 0) (mkTimestamp 2024 3 1 13 0 0 0 0)
    (fst (update_data
            (sample_update (JObj [("temp"%string, JStr "nan"); ("hum"%string, JFloat 50)]))
            (initial_state Missing)))
  = Returns [encode_entry
               (mkReading PrimFloat.nan 50 (mkTimestamp 2024 3 1 12 0 0 0 0) [])]
  /\ GET_data None (Some 0) (mkTimestamp 2024 3 1 13 0 0 0 0)
       (fst (update_data
               (sample_update (JObj [("temp"%string, JStr "nan"); ("hum"%string, JFloat 50)]))
               (initial_state Missing)))
     = Internal_Server_Error
  /\ GET_data None (Some 100) (mkTimestamp 2024 3 1 13 0 0 0 0)
       (fst (update_data
               (sample_update (JObj [("temp"%string, JStr "nan"); ("hum"%string, JFloat 50)]))
               (initial_state Missing)))
     = Internal_Server_Error.
Proof. repeat split; reflexivity. Qed.

(** ** Persistence *)

(** C7, as the code has it.  [load_sensor_data] always returns.  When
    the data file is missing it leaves the series as it is, which is
    empty on the module's import; when the file exists and reading it
    fails it logs the error and leaves an empty series; otherwise it
    leaves the last [MAX_DATA_POINTS] entries read. *)
Theorem load_sensor_data_outcomes (st : state) :
  (data_file st = Missing -> load_sensor_data st = st)
  /\ sensor_data (load_sensor_data (initial_state Missing)) = []
  /\ (data_file st <> Missing ->
      read_data_file (data_file st) = None ->
      sensor_data (load_sensor_data st) = []
      /\ log (load_sensor_data st) = log st ++ [(ERROR, LoadError)])
  /\ (forall data,
         data_file st <> Missing ->
         read_data_file (data_file st) = Some data ->
         sensor_data (load_sensor_data st) = data
         /\ log (load_sensor_data st) = log st ++ [(INFO, Loaded (Py.len data))]).
Proof.
  unfold load_sensor_data. split; [ | split; [ | split ] ].
  - intros ->. reflexivity.
  - reflexivity.
  - intros Hfile Hread.
    destruct (data_file st); [ congruence | | ]; rewrite Hread; split; reflexivity.
  - intros data Hfile Hread.
    destruct (data_file st); [ congruence | | ]; rewrite Hread; split; reflexivity.
Qed.

Lemma load_sensor_data_outcomes_witness :
  sensor_data
    (load_sensor_data
       (set_sensor_data (initial_state (Doc (JObj []))) [sample_reading 28 0]))
  = []
  /\ log (load_sensor_data
            (set_sensor_data (initial_state (Doc (JObj []))) [sample_reading 28 0]))
     = [(ERROR, LoadError)].
Proof.
  apply (proj1 (proj2 (proj2
           (load_sensor_data_outcomes
              (set_sensor_data (initial_state (Doc (JObj []))) [sample_reading 28 0])))));
    [ discriminate | reflexivity ].
Defined.

(** C7 fails as stated: the first load of a start-up reads one entry,
    the file goes missing, and the second load leaves the entry in the
    series. *)
Lemma load_missing_file_keeps_the_series :
  sensor_data
    (load_sensor_data
       (initial_state (Doc (JArr [encode_entry (sample_reading 28 0)]))))
  = [sample_reading 28 0]
  /\ sensor_data
       (load_sensor_data
          (set_data_file
             (load_sensor_data
                (initial_state (Doc (JArr [encode_entry (sample_reading 28 0)]))))
             Missing))
     = [sample_reading 28 0].
Proof. split; reflexivity. Qed.

(** *** Timestamps through [isoformat] and back *)

Lemma digit_char_ok d :
  0 <= d <= 9 ->
  Py.is_digit (Time.digit_char d) = true /\ Py.digit_val (Time.digit_char d) = d.
Proof.
  intros H.
  assert (Hd : d = 0 \/ d = 1 \/ d = 2 \/ d = 3 \/ d = 4 \/ d = 5 \/ d = 6
               \/ d = 7 \/ d = 8 \/ d = 9) by lia.
  repeat (destruct Hd as [->|Hd]; [ split; reflexivity | ]).
  subst. split; reflexivity.
Qed.

Lemma low_digits_step n k :
  0 <= n -> 0 <= k ->
  n mod 10 ^ (k + 1) = (n / 10 ^ k) mod 10 * 10 ^ k + n mod 10 ^ k.
Proof.
  intros Hn Hk. rewrite Z.pow_add_r, Z.pow_1_r by lia.
  rewrite Z.rem_mul_r by (try apply Z.pow_nonzero; lia). lia.
Qed.

Lemma read_digits_digits k :
  forall n acc rest,
    0 <= n ->
    Time.read_digits k acc (Time.digits k n ++ rest)
    = Some (acc * 10 ^ Z.of_nat k + n mod 10 ^ Z.of_nat k, rest).
Proof.
  induction k as [|k IH]; intros n acc rest Hn.
  - cbn. rewrite Z.mod_1_r. f_equal. f_equal. lia.
  - cbn [Time.digits Time.read_digits app].
    destruct (digit_char_ok ((n / 10 ^ Z.of_nat k) mod 10)) as [Hd Hv].
    { pose proof (Z.mod_pos_bound (n / 10 ^ Z.of_nat k) 10); lia. }
    rewrite Hd, Hv, IH by exact Hn. f_equal. f_equal.
    rewrite Nat2Z.inj_succ, <- Z.add_1_r.
    rewrite (low_digits_step n (Z.of_nat k)) by lia.
    rewrite Z.pow_add_r by lia. lia.
Qed.

Lemma take_digits_digits k :
  forall n acc cnt rest,
    0 <= n ->
    Py.take_digits acc cnt (Time.digits k n ++ rest)
    = Py.take_digits (acc * 10 ^ Z.of_nat k + n mod 10 ^ Z.of_nat k)
                     (cnt + Z.of_nat k) rest.
Proof.
  induction k as [|k IH]; intros n acc cnt rest Hn.
  - cbn [Time.digits app]. rewrite Z.mod_1_r. f_equal; cbn; lia.
  - cbn [Time.digits Py.take_digits app].
    destruct (digit_char_ok ((n / 10 ^ Z.of_nat k) mod 10)) as [Hd Hv].
    { pose proof (Z.mod_pos_bound (n / 10 ^ Z.of_nat k) 10); lia. }
    rewrite Hd, Hv, IH by exact Hn.
    rewrite Nat2Z.inj_succ, <- Z.add_1_r.
    rewrite (low_digits_step n (Z.of_nat k)) by lia.
    rewrite Z.pow_add_r by lia. f_equal; lia.
Qed.

Lemma valid_bounds t :
  Time.valid t = true ->
  (1 <= year t <= 9999) /\ (1 <= month t <= 12)
  /\ (1 <= day t <= Time.days_in_month (year t) (month t))
  /\ (0 <= hour t <= 23) /\ (0 <= minute t <= 59) /\ (0 <= second t <= 59)
  /\ (0 <= microsecond t <= 999999) /\ (0 <= nanosecond t <= 999).
Proof.
  unfold Time.valid, Time.in_range. rewrite !andb_true_iff, !Z.leb_le. tauto.
Qed.

Lemma days_in_month_le y m : Time.days_in_month y m <= 31.
Proof.
  unfold Time.days_in_month.
  destruct (m =? 2); [ destruct (Time.is_leap y); lia | ].
  destruct ((m =? 4) || (m =? 6) || (m =? 9) || (m =? 11)); lia.
Qed.

Lemma read_fixed k n rest :
  0 <= n < 10 ^ Z.of_nat k ->
  Time.read_digits k 0 (Time.digits k n ++ rest) = Some (n, rest).
Proof.
  intros H. rewrite read_digits_digits by lia.
  rewrite Z.mod_small by exact H. reflexivity.
Qed.

Lemma read_fraction_isoformat us ns :
  0 <= us <= 999999 -> 0 <= ns <= 999 ->
  exists frac,
    Time.read_fraction
      (if negb (ns =? 0)
       then ["."%char] ++ Time.digits 6 us ++ Time.digits 3 ns
       else if negb (us =? 0) then ["."%char] ++ Time.digits 6 us else [])
    = Some frac
    /\ frac / 1000 = us /\ frac mod 1000 = ns.
Proof.
  intros Hus Hns.
  destruct (ns =? 0) eqn:En; cbn [negb].
  - apply Z.eqb_eq in En. subst ns.
    destruct (us =? 0) eqn:Eu; cbn [negb].
    + apply Z.eqb_eq in Eu. subst us. exists 0. repeat split.
    + exists (us * 1000). cbn [app Time.read_fraction].
      replace (Ascii.eqb "." ".") with true by reflexivity.
      rewrite <- (app_nil_r (Time.digits 6 us)), take_digits_digits by lia.
      cbn [Py.take_digits]. rewrite Z.mod_small by (cbn; lia).
      cbn. repeat split.
      * rewrite Z.div_mul by lia. reflexivity.
      * apply Z.mod_mul. lia.
  - exists (us * 1000 + ns). cbn [app Time.read_fraction].
    replace (Ascii.eqb "." ".") with true by reflexivity.
    rewrite take_digits_digits by lia.
    rewrite <- (app_nil_r (Time.digits 3 ns)), take_digits_digits by lia.
    cbn [Py.take_digits]. rewrite !Z.mod_small by (cbn; lia).
    cbn. repeat split.
    + f_equal. lia.
    + rewrite Z.div_add_l by lia. rewrite Z.div_small by lia. lia.
    + rewrite Z.add_comm, Z.mod_add by lia. apply Z.mod_small. lia.
Qed.

Ltac parse_field :=
  rewrite read_fixed by (cbn; lia);
  cbn [Time.bind app Time.expect existsb orb Ascii.eqb Bool.eqb].

Lemma parse_iso_isoformat t :
  Time.valid t = true -> Time.parse_iso (Time.isoformat t) = Some t.
Proof.
  intros Hv. pose proof (valid_bounds t Hv) as (Hy & Hmo & Hd & Hh & Hmi & Hs & Hus & Hns).
  pose proof (days_in_month_le (year t) (month t)) as Hdim.
  destruct (read_fraction_isoformat _ _ Hus Hns) as (frac & Hfrac & Hq & Hr).
  unfold Time.parse_iso, Time.isoformat, Time.isoformat_chars.
  rewrite list_ascii_of_string_of_list_ascii.
  do 6 parse_field.
  cbn [app] in Hfrac. rewrite Hfrac. cbn [Time.bind]. rewrite Hq, Hr.
  destruct t. cbn in *. rewrite Hv. reflexivity.
Qed.

Lemma filter_noncore (extra : list (string * json)) :
  forallb (fun kv => negb (core_key (fst kv))) extra = true ->
  filter (fun kv => negb (core_key (fst kv))) extra = extra.
Proof.
  induction extra as [|kv extra IH]; cbn [forallb filter]; [ reflexivity | ].
  rewrite andb_true_iff. intros [-> H]. rewrite IH by exact H. reflexivity.
Qed.

Lemma decode_encode_entry r : storable r -> decode_entry (encode_entry r) = Some r.
Proof.
  intros [Hv Hx]. unfold encode_entry, decode_entry.
  cbn [app dict_get String.eqb Ascii.eqb Bool.eqb pd_Timestamp].
  rewrite parse_iso_isoformat by exact Hv.
  cbn [filter fst core_key String.eqb Ascii.eqb Bool.eqb orb negb].
  rewrite filter_noncore by exact Hx. destruct r. reflexivity.
Qed.

Lemma decode_encode_entries l :
  Forall storable l -> decode_entries (map encode_entry l) = Some l.
Proof.
  induction 1 as [|r l Hr _ IH]; cbn [map decode_entries]; [ reflexivity | ].
  rewrite decode_encode_entry by exact Hr. rewrite IH. reflexivity.
Qed.


Lemma add_extra_fields_noncore items :
  forall acc,
    forallb (fun kv => negb (core_key (fst kv))) acc = true ->
    forallb (fun kv => negb (core_key (fst kv))) (add_extra_fields items acc) = true.
Proof.
  induction items as [|[key v] items IH]; intros acc Hacc; cbn [add_extra_fields];
    [ exact Hacc | ].
  destruct (core_key key) eqn:Ek; cbn [orb negb]; [ apply IH; exact Hacc | ].
  destruct (dict_mem key acc); cbn [negb]; apply IH; [ exact Hacc | ].
  rewrite forallb_app, Hacc. cbn. rewrite Ek. reflexivity.
Qed.

Lemma entry_of_storable i e :
  entry_of i = Some e -> Time.valid (now i) = true -> storable e.
Proof.
  unfold entry_of, build_entry. destruct (body i) as [|data]; [ discriminate | ].
  destruct data; try discriminate.
  destruct (negb (dict_mem "temp" fields) || negb (dict_mem "hum" fields));
    [ discriminate | ].
  destruct (dict_get "temp" fields) as [tv|]; [ | discriminate ].
  destruct (dict_get "hum" fields) as [hv|]; [ | discriminate ].
  destruct (py_float tv); [ | discriminate ].
  destruct (py_float hv); [ | discriminate ].
  intros [= <-] Hv. split; [ exact Hv | ].
  cbn [extra]. apply add_extra_fields_noncore. reflexivity.
Qed.


Lemma Forall_last_n {A} (P : A -> Prop) k l : Forall P l -> Forall P (last_n k l).
Proof.
  unfold last_n. intros H. rewrite <- (firstn_skipn (List.length l - Z.to_nat k) l) in H.
  apply Forall_app in H. tauto.
Qed.

Lemma parse_iso_valid s t : Time.parse_iso s = Some t -> Time.valid t = true.
Proof.
  unfold Time.parse_iso, Time.bind.
  repeat match goal with
         | |- context [match ?x with _ => _ end] =>
             destruct x eqn:?; try discriminate
         | |- context [let '(_, _) := ?p in _] => destruct p
         end.
  all: try (intros [= <-]; assumption).
Qed.

Lemma decode_entry_storable j r : decode_entry j = Some r -> storable r.
Proof.
  unfold decode_entry. destruct j; try discriminate.
  destruct (dict_get "time" fields) as [tj|]; [ | discriminate ].
  destruct (dict_get "temp" fields) as [[]|]; try discriminate.
  destruct (dict_get "hum" fields) as [[]|]; try discriminate.
  destruct (pd_Timestamp tj) as [ts|] eqn:Ets; [ | discriminate ].
  intros [= <-]. split; cbn [time extra].
  - destruct tj; try discriminate. eapply parse_iso_valid. exact Ets.
  - apply forallb_forall. intros kv Hin. apply filter_In in Hin. tauto.
Qed.

Lemma decode_entries_storable l :
  forall data, decode_entries l = Some data -> Forall storable data.
Proof.
  induction l as [|j l IH]; cbn [decode_entries]; intros data.
  - intros [= <-]. constructor.
  - destruct (decode_entry j) as [r|] eqn:Er; [ | discriminate ].
    destruct (decode_entries l) as [rs|]; [ | discriminate ].
    intros [= <-]. constructor; [ eapply decode_entry_storable; exact Er | ].
    apply IH. reflexivity.
Qed.

(** A load leaves entries of the shape a save writes. *)
Lemma load_sensor_data_storable st :
  Forall storable (sensor_data st) ->
  Forall storable (sensor_data (load_sensor_data st)).
Proof.
  intros H. unfold load_sensor_data.
  destruct (data_file st) as [| |j] eqn:Ef; [ exact H | constructor | ].
  destruct (read_data_file (Doc j)) as [data|] eqn:Er; [ | constructor ].
  cbn [logger set_sensor_data sensor_data].
  unfold read_data_file in Er.
  destruct j as [| | | |[|]|items|]; try discriminate.
  - injection Er as <-. constructor.
  - destruct (decode_entries items) as [rs|] eqn:Ed; [ | discriminate ].
    injection Er as <-.
    change (Forall storable (Py.slice_from (- MAX_DATA_POINTS) rs)).
    rewrite slice_from_last_n by reflexivity.
    apply Forall_last_n. eapply decode_entries_storable. exact Ed.
Qed.



(** ** Smoothing *)

Lemma insert_by_facts {A} (key : A -> Z) (P : A -> bool) x l :
  List.length (Pandas.insert_by key x l) = S (List.length l)
  /\ forallb P (Pandas.insert_by key x l) = P x && forallb P l.
Proof.
  induction l as [|y l [IHl IHp]]; cbn [Pandas.insert_by]; [ auto | ].
  destruct (key x <? key y); cbn [List.length forallb]; [ auto | ].
  rewrite IHl, IHp. split; [ reflexivity | ].
  destruct (P x), (P y); reflexivity.
Qed.

(** Sorting keeps the number of rows and what holds of every row. *)
Lemma sort_values_facts {A} (key : A -> Z) (P : A -> bool) l :
  List.length (Pandas.sort_values key l) = List.length l
  /\ forallb P (Pandas.sort_values key l) = forallb P l.
Proof.
  unfold Pandas.sort_values.
  assert (H : forall acc,
             List.length (fold_left (fun acc x => Pandas.insert_by key x acc) l acc)
             = (List.length l + List.length acc)%nat
             /\ forallb P (fold_left (fun acc x => Pandas.insert_by key x acc) l acc)
                = forallb P l && forallb P acc).
  { induction l as [|x l IH]; intros acc; cbn [fold_left List.length forallb];
      [ auto | ].
    destruct (IH (Pandas.insert_by key x acc)) as [-> ->].
    destruct (insert_by_facts key P x acc) as [-> ->].
    split; [ lia | ].
    destruct (P x), (forallb P l), (forallb P acc); reflexivity. }
  destruct (H []) as [-> ->]. cbn. rewrite Nat.add_0_r, andb_true_r. auto.
Qed.

Section Fill.

Context {A : Type}.






End Fill.










(** *** A window of one *)






(** *** The reply of [!plot_rolling] *)







(** A window of 0 has no observation at any position, and a negative
    window is refused by [rolling]. *)
Lemma zero_window_is_left_unfilled :
  send_plot_rolling (mkTimestamp 2024 3 1 13 0 0 0 0) 24 0
    (set_sensor_data (initial_state Missing) [sample_reading 28 0])
  = Rolling_plot [sample_reading 28 0] [None] [None]
  /\ send_plot_rolling (mkTimestamp 2024 3 1 13 0 0 0 0) 24 (-1)
       (set_sensor_data (initial_state Missing) [sample_reading 28 0])
     = Command_error.
Proof. split; reflexivity. Qed.

(** Finite readings whose running sum overflows: the sum of the first
    two is infinite, the third takes it to NaN, and NaN it stays; the
    smoothed temperature is missing at every position. *)
Lemma overflowing_sum_is_left_unfilled :
  send_plot_rolling (mkTimestamp 2024 3 1 13 0 0 0 0) 24 3
    (set_sensor_data (initial_state Missing)
       [sample_reading 1e308 0; sample_reading 1.1e308 1;
        sample_reading 1.2e308 2])
  = Rolling_plot
      [sample_reading 1e308 0; sample_reading 1.1e308 1;
       sample_reading 1.2e308 2]
      [None; None; None] [Some 50%float; Some 50%float; Some 50%float]
  /\ forallb finite_reading
       [sample_reading 1e308 0; sample_reading 1.1e308 1;
        sample_reading 1.2e308 2] = true.
Proof. split; reflexivity. Qed.

(** The running sum is compensated: the mean of 0.1, 0.2 and 0.3 is
    0.19999999999999998, where the plain sum gives
    0.20000000000000004. *)
Lemma rolling_mean_is_compensated :
  Pandas.rolling_mean_center 3 [0.1; 0.2; 0.3]%float
  = Some [None; Some 0.19999999999999998%float; None]
  /\ ((0.1 + 0.2 + 0.3) / 3 =? 0.20000000000000004)%float = true.
Proof. split; reflexivity. Qed.

(** * Further properties *)

Local Open Scope float_scope.

(** ** Status and alerts side by side *)

Lemma leb_not_nan x y : (x <=? y) = true -> PrimFloat.is_nan x = false /\ PrimFloat.is_nan y = false.
Proof.
  unfold PrimFloat.is_nan. rewrite !negb_false_iff, FloatAxioms.leb_spec, !FloatAxioms.eqb_spec.
  unfold SFeqb. generalize (Prim2SF x) (Prim2SF y). intros a b. split; sf_order.
Qed.

Lemma ltb_not_nan x y : (x <? y) = true -> PrimFloat.is_nan x = false /\ PrimFloat.is_nan y = false.
Proof. intros H. apply leb_not_nan, ltb_leb, H. Qed.

Lemma nan_comparisons x :
  PrimFloat.is_nan x = true ->
  forall y, (x <? y) = false /\ (y <? x) = false /\ (x <=? y) = false /\ (y <=? x) = false.
Proof.
  intros Hn y.
  repeat split.
  - destruct (x <? y) eqn:E; [ | reflexivity ]. apply ltb_not_nan in E. destruct E; congruence.
  - destruct (y <? x) eqn:E; [ | reflexivity ]. apply ltb_not_nan in E. destruct E; congruence.
  - destruct (x <=? y) eqn:E; [ | reflexivity ]. apply leb_not_nan in E. destruct E; congruence.
  - destruct (y <=? x) eqn:E; [ | reflexivity ]. apply leb_not_nan in E. destruct E; congruence.
Qed.

(** The humidity message by the range of the humidity. *)
Lemma humidity_status_by_range :
  (forall h,
      ((h <? 40) = true -> humidity_status h = Too_Dry)
      /\ ((40 <=? h) = true -> (h <=? 60) = true -> humidity_status h = Hum_Perfect)
      /\ ((60 <? h) = true -> humidity_status h = Too_Humid))
  /\ (forall h,
         PrimFloat.is_nan h = false ->
         (h <? 40) = true
         \/ ((40 <=? h) = true /\ (h <=? 60) = true)
         \/ (60 <? h) = true).
Proof.
  split.
  - intros h. unfold humidity_status. cbn [hum_min hum_max SULCATA_ENV].
    assert (H4060 : (40 <=? 60) = true) by reflexivity.
    split; [ | split ].
    + intros ->. reflexivity.
    + intros Hlo Hhi.
      destruct (h <? 40) eqn:E1; [ exfalso; eapply ltb_leb_false; eassumption | ].
      rewrite Hhi. reflexivity.
    + intros Hhi.
      destruct (h <? 40) eqn:E1;
        [ exfalso; eapply (ltb_chain_false h 40 60); try eassumption;
          apply ltb_leb; assumption | ].
      destruct (h <=? 60) eqn:E2; [ exfalso; eapply ltb_leb_false; eassumption | ].
      reflexivity.
  - intros h Hn.
    destruct (h <? 40) eqn:E1; [ now left | right ].
    apply not_ltb_leb in E1; [ | assumption | reflexivity ].
    destruct (h <=? 60) eqn:E2; [ now left | right ].
    apply not_leb_ltb in E2; [ | assumption | reflexivity ].
    assumption.
Qed.

(** X1.  [!sulcata_status] calls a humidity below 40 too dry, from 40
    to 60 (both included) perfect and above 60 too humid, and every
    humidity that is a number lies in one of the three ranges. *)
Theorem humidity_status_bands :
  (forall h,
      ((h <? 40) = true -> humidity_status h = Too_Dry)
      /\ ((40 <=? h) = true -> (h <=? 60) = true -> humidity_status h = Hum_Perfect)
      /\ ((60 <? h) = true -> humidity_status h = Too_Humid))
  /\ (forall h,
         PrimFloat.is_nan h = false ->
         (h <? 40) = true
         \/ ((40 <=? h) = true /\ (h <=? 60) = true)
         \/ (60 <? h) = true).
Proof. exact humidity_status_by_range. Qed.

Lemma humidity_status_bands_witness :
  humidity_status 40 = Hum_Perfect /\ humidity_status 60 = Hum_Perfect.
Proof.
  split.
  - apply (proj1 humidity_status_bands 40); reflexivity.
  - apply (proj1 humidity_status_bands 60); reflexivity.
Defined.

Lemma temperature_alert_cases t h :
  temperature_alert t h = ((t <? 18) || (40 <? t))%bool.
Proof.
  unfold temperature_alert, alert_check, check_humidity, check_temperature.
  cbn [temp_min temp_max hum_min hum_max SULCATA_ENV].
  destruct (t <? 18), (40 <? t), (h <? 40 - 10), (60 + 15 <? h); reflexivity.
Qed.

Lemma humidity_alert_cases t h :
  humidity_alert t h = ((h <? 30) || (75 <? h))%bool.
Proof.
  unfold humidity_alert, alert_check, check_humidity, check_temperature.
  cbn [temp_min temp_max hum_min hum_max SULCATA_ENV].
  change (40 - 10) with 30. change (60 + 15) with 75.
  destruct (t <? 18), (40 <? t), (h <? 30), (75 <? h); reflexivity.
Qed.

Lemma alert_worthy_cases t h :
  alert_worthy t h = (temperature_alert t h || humidity_alert t h)%bool.
Proof.
  rewrite temperature_alert_cases, humidity_alert_cases.
  unfold alert_worthy, alert_check, check_humidity, check_temperature.
  cbn [temp_min temp_max hum_min hum_max SULCATA_ENV].
  change (40 - 10) with 30. change (60 + 15) with 75.
  destruct (t <? 18), (40 <? t), (h <? 30), (75 <? h); reflexivity.
Qed.

(** What each temperature message says of the temperature. *)
Lemma temperature_status_inv t :
  match temperature_status t with
  | TOO_COLD => (t <? 18) = true
  | Too_Cool => (t <? 18) = false /\ (t <? 27) = true
  | Temp_Perfect => (t <? 18) = false /\ (t <? 27) = false /\ (t <=? 35) = true
  | Too_Warm => (t <=? 35) = false /\ (t <=? 40) = true
  | TOO_HOT => (t <? 18) = false /\ (t <=? 40) = false
  end.
Proof.
  unfold temperature_status. cbn [temp_min temp_ideal_min temp_ideal_max temp_max SULCATA_ENV].
  destruct (t <? 18); [ reflexivity | ].
  destruct (t <? 27); [ auto | ].
  destruct (t <=? 35); [ auto | ].
  destruct (t <=? 40); auto.
Qed.

Lemma humidity_status_inv h :
  match humidity_status h with
  | Too_Dry => (h <? 40) = true
  | Hum_Perfect => (h <? 40) = false /\ (h <=? 60) = true
  | Too_Humid => (h <? 40) = false /\ (h <=? 60) = false
  end.
Proof.
  unfold humidity_status. cbn [hum_min hum_max SULCATA_ENV].
  destruct (h <? 40); [ reflexivity | ].
  destruct (h <=? 60); auto.
Qed.

(** X2.  Alerts are raised off the extreme messages only: a temperature
    alert goes with [TOO_COLD] or [TOO_HOT] and a humidity alert with
    [Too_Dry] or [Too_Humid]; [TOO_COLD] always alerts, [TOO_HOT] alerts
    when the temperature is a number, and a reading with both messages
    perfect never alerts.  A reading of two NaN is shown as [TOO_HOT]
    and [Too_Humid] and raises no alert. *)
Theorem alerts_agree_with_status (t h : float) :
  (temperature_alert t h = true ->
   temperature_status t = TOO_COLD \/ temperature_status t = TOO_HOT)
  /\ (temperature_status t = TOO_COLD -> temperature_alert t h = true)
  /\ (PrimFloat.is_nan t = false ->
      temperature_status t = TOO_HOT -> temperature_alert t h = true)
  /\ (humidity_alert t h = true ->
      humidity_status h = Too_Dry \/ humidity_status h = Too_Humid)
  /\ (temperature_status t = Temp_Perfect ->
      humidity_status h = Hum_Perfect -> alert_worthy t h = false)
  /\ (PrimFloat.is_nan t = true -> PrimFloat.is_nan h = true ->
      temperature_status t = TOO_HOT /\ humidity_status h = Too_Humid
      /\ alert_worthy t h = false).
Proof.
  pose proof (temperature_status_inv t) as Ht.
  pose proof (humidity_status_inv h) as Hh.
  pose proof (proj1 temperature_status_by_range t) as (Rcold & _ & _ & _ & Rhot).
  pose proof (proj1 humidity_status_by_range h) as (Rdry & _ & Rhumid).
  rewrite alert_worthy_cases, temperature_alert_cases, humidity_alert_cases.
  split; [ | split; [ | split; [ | split; [ | split ] ] ] ].
  - rewrite orb_true_iff. intros [H|H]; [ left; apply Rcold | right; apply Rhot ]; exact H.
  - intros E. rewrite E in Ht. rewrite Ht. reflexivity.
  - intros Hn E. rewrite E in Ht. destruct Ht as [_ Ht].
    apply not_leb_ltb in Ht; [ | exact Hn | reflexivity ].
    rewrite Ht. apply orb_true_r.
  - rewrite orb_true_iff. intros [H|H].
    + left. apply Rdry. eapply (ltb_leb_trans h 30 40); [ exact H | reflexivity ].
    + right. apply Rhumid. eapply (leb_ltb_trans 60 75 h); [ reflexivity | exact H ].
  - intros Et Eh. rewrite Et in Ht. rewrite Eh in Hh.
    destruct Ht as (T1 & _ & T3). destruct Hh as (H1 & H2).
    rewrite T1. cbn [orb].
    destruct (40 <? t) eqn:T4.
    { exfalso. eapply (ltb_leb_false 35 t); [ | exact T3 ].
      eapply (leb_ltb_trans 35 40 t); [ reflexivity | exact T4 ]. }
    destruct (h <? 30) eqn:H3.
    { pose proof (ltb_leb_trans h 30 40 H3 eq_refl). congruence. }
    destruct (75 <? h) eqn:H4; [ | reflexivity ].
    exfalso. eapply (ltb_leb_false 60 h); [ | exact H2 ].
    eapply (leb_ltb_trans 60 75 h); [ reflexivity | exact H4 ].
  - intros Nt Nh.
    destruct (nan_comparisons t Nt 18) as (A1 & _ & _ & _).
    destruct (nan_comparisons t Nt 40) as (_ & A2 & A3 & _).
    destruct (nan_comparisons t Nt 27) as (A4 & _ & _ & _).
    destruct (nan_comparisons t Nt 35) as (_ & _ & A5 & _).
    destruct (nan_comparisons h Nh 40) as (B1 & _ & _ & _).
    destruct (nan_comparisons h Nh 60) as (_ & _ & B2 & _).
    destruct (nan_comparisons h Nh 30) as (B3 & _ & _ & _).
    destruct (nan_comparisons h Nh 75) as (_ & B4 & _ & _).
    unfold temperature_status, humidity_status.
    cbn [temp_min temp_ideal_min temp_ideal_max temp_max hum_min hum_max SULCATA_ENV].
    rewrite A1, A2, A3, A4, A5, B1, B2, B3, B4. auto.
Qed.

Lemma alerts_agree_with_status_witness :
  temperature_alert 10 50 = true /\ alert_worthy 30 50 = false.
Proof.
  split.
  - apply (proj1 (proj2 (alerts_agree_with_status 10 50))). reflexivity.
  - apply (proj1 (proj2 (proj2 (proj2 (proj2 (alerts_agree_with_status 30 50))))));
      reflexivity.
Defined.

Lemma in_band_temp t :
  in_band (temp_ideal_min SULCATA_ENV) t (temp_ideal_max SULCATA_ENV)
  = status_flag_temp (temperature_status t).
Proof.
  unfold in_band. cbn [temp_ideal_min temp_ideal_max SULCATA_ENV].
  destruct (27 <=? t) eqn:E1, (t <=? 35) eqn:E2; cbn [andb];
    pose proof (temperature_status_inv t) as Ht;
    pose proof (proj1 temperature_status_by_range t) as (_ & _ & Rp & _ & _).
  - rewrite (Rp E1 E2). reflexivity.
  - destruct (temperature_status t); try reflexivity. destruct Ht as (_ & _ & Ht). congruence.
  - destruct (temperature_status t); try reflexivity. destruct Ht as (_ & T2 & T3).
    apply not_ltb_leb in T2; [ congruence | | reflexivity ].
    apply (leb_not_nan t 35 T3).
  - destruct (temperature_status t); try reflexivity. destruct Ht as (_ & _ & Ht). congruence.
Qed.

Lemma in_band_hum h :
  in_band (hum_min SULCATA_ENV) h (hum_max SULCATA_ENV)
  = status_flag_hum (humidity_status h).
Proof.
  unfold in_band. cbn [hum_min hum_max SULCATA_ENV].
  destruct (40 <=? h) eqn:E1, (h <=? 60) eqn:E2; cbn [andb];
    pose proof (humidity_status_inv h) as Hh;
    pose proof (proj1 humidity_status_by_range h) as (_ & Rp & _).
  - rewrite (Rp E1 E2). reflexivity.
  - destruct (humidity_status h); try reflexivity. destruct Hh as (_ & Hh). congruence.
  - destruct (humidity_status h); try reflexivity. destruct Hh as (H1 & H2).
    apply not_ltb_leb in H1; [ congruence | | reflexivity ].
    apply (leb_not_nan h 60 H2).
  - destruct (humidity_status h); try reflexivity. destruct Hh as (_ & Hh). congruence.
Qed.

(** X3.  A payload that builds an entry is acknowledged whatever the file
    write and the Discord client do, and the two flags of the answer
    are [ok] exactly when [!sulcata_status] would call the value
    perfect. *)
Theorem update_data_acknowledges (i : update_input) (st : state) (e : reading) :
  entry_of i = Some e ->
  snd (update_data i st)
  = Data_received (status_flag_temp (temperature_status (temp e)))
                  (status_flag_hum (humidity_status (hum e))).
Proof.
  unfold entry_of, update_data. destruct (body i) as [|data]; [ discriminate | ].
  destruct (build_entry data (now i)) as [code|[entry|]]; try discriminate.
  intros [= ->]. cbn [snd]. rewrite in_band_temp, in_band_hum. reflexivity.
Qed.

Lemma update_data_acknowledges_witness :
  snd (update_data
         (mkUpdate (Body (JObj [("temp"%string, JFloat 41); ("hum"%string, JFloat 50)]))
                   (mkTimestamp 2024 3 1 12 0 0 0 0) 1709294400
                   Dispatch_raises (WriteFailed Unreadable))
         (initial_state Missing))
  = Data_received warning ok.
Proof.
  apply (update_data_acknowledges
           (mkUpdate (Body (JObj [("temp"%string, JFloat 41); ("hum"%string, JFloat 50)]))
                     (mkTimestamp 2024 3 1 12 0 0 0 0) 1709294400
                     Dispatch_raises (WriteFailed Unreadable))
           (initial_state Missing)
           (mkReading 41 50 (mkTimestamp 2024 3 1 12 0 0 0 0) [])).
  reflexivity.
Defined.

Local Open Scope Z_scope.

(** ** Where alerts go *)

(** The sections of an alert: one for the temperature at most, one for
    the humidity at most, and one at least when an alert is needed. *)
Lemma alert_check_sections t h :
  (List.length (filter is_temperature_section (snd (alert_check t h))) <= 1)%nat
  /\ (List.length (filter is_humidity_section (snd (alert_check t h))) <= 1)%nat
  /\ (alert_worthy t h = true -> snd (alert_check t h) <> []).
Proof.
  unfold alert_worthy, alert_check, check_humidity, check_temperature.
  destruct (PrimFloat.ltb t (temp_min SULCATA_ENV)),
    (PrimFloat.ltb (temp_max SULCATA_ENV) t),
    (PrimFloat.ltb h (PrimFloat.sub (hum_min SULCATA_ENV) 10)),
    (PrimFloat.ltb (PrimFloat.add (hum_max SULCATA_ENV) 15) h);
    cbn; repeat split; try lia; try discriminate.
Qed.

(** One evaluation adds nothing to the outbox or one message, to the
    channel that is set; it keeps the channel, and without a channel it
    keeps the outbox and the cooldown timestamp. *)
Lemma check_conditions_and_alert_outbox t h current d st :
  ALERT_CHANNEL_ID (check_conditions_and_alert t h current d st)
  = ALERT_CHANNEL_ID st
  /\ (outbox (check_conditions_and_alert t h current d st) = outbox st
      \/ exists id,
           ALERT_CHANNEL_ID st = Some id
           /\ alert_worthy t h = true
           /\ outbox (check_conditions_and_alert t h current d st)
              = outbox st ++ [(id, snd (alert_check t h))])
  /\ (no_alert_channel st = true ->
      outbox (check_conditions_and_alert t h current d st) = outbox st
      /\ last_alert_time (check_conditions_and_alert t h current d st)
         = last_alert_time st).
Proof.
  unfold check_conditions_and_alert, alert_worthy.
  destruct (no_alert_channel st) eqn:Hc; cbn [orb]; [ auto | ].
  destruct (cooling_down current st); [ repeat split; auto; discriminate | ].
  destruct (alert_check t h) as [[|] parts]; cbn [fst snd];
    [ | repeat split; auto; discriminate ].
  destruct d, (ALERT_CHANNEL_ID st) as [id|] eqn:Hid; cbn;
    repeat split; auto; try discriminate.
  right. exists id. auto.
Qed.

Lemma save_sensor_data_frame w st :
  ALERT_CHANNEL_ID (save_sensor_data w st) = ALERT_CHANNEL_ID st
  /\ outbox (save_sensor_data w st) = outbox st
  /\ last_alert_time (save_sensor_data w st) = last_alert_time st.
Proof. destruct w; repeat split. Qed.

(** The same of one call of [/update]. *)
Lemma update_data_outbox i st :
  ALERT_CHANNEL_ID (fst (update_data i st)) = ALERT_CHANNEL_ID st
  /\ (outbox (fst (update_data i st)) = outbox st
      \/ exists id e,
           ALERT_CHANNEL_ID st = Some id
           /\ entry_of i = Some e
           /\ alert_worthy (temp e) (hum e) = true
           /\ outbox (fst (update_data i st))
              = outbox st ++ [(id, snd (alert_check (temp e) (hum e)))])
  /\ (no_alert_channel st = true ->
      outbox (fst (update_data i st)) = outbox st
      /\ last_alert_time (fst (update_data i st)) = last_alert_time st).
Proof.
  unfold update_data, entry_of. destruct (body i) as [|data]; [ cbn; auto | ].
  destruct (build_entry data (now i)) as [code|[e|]]; try (cbn; auto; fail).
  cbn [fst].
  match goal with
  | |- context [check_conditions_and_alert ?t ?h ?c ?d ?s] =>
      set (st4 := s);
      destruct (check_conditions_and_alert_outbox t h c d st4) as (Hch & Hout & Hno)
  end.
  assert (Hframe : ALERT_CHANNEL_ID st4 = ALERT_CHANNEL_ID st
                   /\ outbox st4 = outbox st
                   /\ last_alert_time st4 = last_alert_time st).
  { subst st4. cbn [logger ALERT_CHANNEL_ID outbox last_alert_time].
    match goal with
    | |- context [if ?c then save_sensor_data ?w ?s else ?s] =>
        destruct c; [ rewrite !(proj1 (save_sensor_data_frame w s)),
                        !(proj1 (proj2 (save_sensor_data_frame w s))),
                        !(proj2 (proj2 (save_sensor_data_frame w s))) | ];
        destruct (MAX_DATA_POINTS <? Py.len (sensor_data (set_sensor_data st (sensor_data st ++ [e]))));
        repeat split
    end. }
  destruct Hframe as (F1 & F2 & F3).
  rewrite Hch, F1. split; [ reflexivity | ]. split.
  - destruct Hout as [Hout|(id & Hid & Hw & Hout)].
    + left. rewrite Hout. exact F2.
    + right. exists id, e. rewrite Hout, F2, <- F1. auto.
  - intros Hc. unfold no_alert_channel in Hno. rewrite F1 in Hno.
    destruct (Hno Hc) as [-> ->]. auto.
Qed.

Lemma load_sensor_data_frame st :
  ALERT_CHANNEL_ID (load_sensor_data st) = ALERT_CHANNEL_ID st
  /\ outbox (load_sensor_data st) = outbox st
  /\ last_alert_time (load_sensor_data st) = last_alert_time st.
Proof.
  unfold load_sensor_data.
  destruct (data_file st) as [| |j]; [ auto | | ];
    match goal with
    | |- context [read_data_file ?f] => destruct (read_data_file f)
    end; auto.
Qed.

(** X4.  Until [!set_alerts] is sent no call of [/update] delivers an alert
    or starts the cooldown: the channel is unset on import, whatever the
    environment says, and nothing but the command sets it. *)
Theorem no_alert_before_set_alerts (inputs : list update_input) :
  (forall st,
      no_alert_channel st = true ->
      outbox (fst (run_updates inputs st)) = outbox st
      /\ last_alert_time (fst (run_updates inputs st)) = last_alert_time st
      /\ ALERT_CHANNEL_ID (fst (run_updates inputs st)) = ALERT_CHANNEL_ID st)
  /\ (forall f,
         outbox (fst (run_updates inputs (main f))) = []
         /\ ALERT_CHANNEL_ID (fst (run_updates inputs (main f))) = None).
Proof.
  assert (Hgen : forall st,
             no_alert_channel st = true ->
             outbox (fst (run_updates inputs st)) = outbox st
             /\ last_alert_time (fst (run_updates inputs st)) = last_alert_time st
             /\ ALERT_CHANNEL_ID (fst (run_updates inputs st)) = ALERT_CHANNEL_ID st).
  { induction inputs as [|i inputs IH]; intros st Hc; [ cbn; auto | ].
    rewrite run_updates_cons.
    destruct (update_data_outbox i st) as (Hch & _ & Hno).
    destruct (Hno Hc) as [Ho Hl].
    destruct (IH (fst (update_data i st))) as (-> & -> & ->).
    { unfold no_alert_channel in *. rewrite Hch. exact Hc. }
    auto. }
  split; [ exact Hgen | ].
  intros f.
  assert (Hmain : no_alert_channel (main f) = true /\ outbox (main f) = []
                  /\ ALERT_CHANNEL_ID (main f) = None).
  { unfold main, startup_event, no_alert_channel. cbn [fst].
    destruct (load_sensor_data_frame (load_sensor_data (initial_state f)))
      as (-> & -> & _).
    destruct (load_sensor_data_frame (initial_state f)) as (-> & -> & _).
    auto. }
  destruct Hmain as (Hc & Ho & Hi).
  destruct (Hgen (main f) Hc) as (-> & _ & ->). auto.
Qed.

Lemma no_alert_before_set_alerts_witness :
  outbox
    (fst (run_updates
            [sample_update (JObj [("temp"%string, JFloat 45); ("hum"%string, JFloat 5)])]
            (initial_state Missing))) = [].
Proof.
  apply (proj1 (no_alert_before_set_alerts
                  [sample_update (JObj [("temp"%string, JFloat 45); ("hum"%string, JFloat 5)])])
               (initial_state Missing)).
  reflexivity.
Defined.

(** X5.  Every alert a run of [/update] calls delivers goes to the channel
    that was set, and carries at least one section, one for the
    temperature at most and one for the humidity at most; there are no
    more alerts than stored readings. *)
Theorem alerts_go_to_the_set_channel (inputs : list update_input) (c : Z) :
  forall st,
    ALERT_CHANNEL_ID st = Some c ->
    exists new,
      outbox (fst (run_updates inputs st)) = outbox st ++ new
      /\ Forall (fun m =>
                   fst m = c /\ snd m <> []
                   /\ (List.length (filter is_temperature_section (snd m)) <= 1)%nat
                   /\ (List.length (filter is_humidity_section (snd m)) <= 1)%nat)
                new
      /\ (List.length new <= List.length (appended inputs))%nat.
Proof.
  induction inputs as [|i inputs IH]; intros st Hc.
  - exists []. cbn. rewrite app_nil_r. auto.
  - rewrite run_updates_cons.
    destruct (update_data_outbox i st) as (Hch & Hout & _).
    destruct (IH (fst (update_data i st))) as (new & Hnew & Hall & Hlen).
    { rewrite Hch. exact Hc. }
    cbn [appended flat_map]. rewrite length_app.
    destruct Hout as [Hout|(id & e & Hid & He & Hw & Hout)].
    + exists new. rewrite Hnew, Hout. repeat split; [ exact Hall | ].
      unfold appended in Hlen. lia.
    + exists ((id, snd (alert_check (temp e) (hum e))) :: new).
      rewrite Hnew, Hout, <- app_assoc. split; [ reflexivity | ]. split.
      * constructor; [ | exact Hall ]. cbn [fst snd].
        destruct (alert_check_sections (temp e) (hum e)) as (S1 & S2 & S3).
        repeat split; auto. congruence.
      * rewrite He. cbn [List.length]. unfold appended in Hlen. lia.
Qed.

Lemma alerts_go_to_the_set_channel_witness :
  exists new,
    outbox
      (fst (run_updates
              [sample_update (JObj [("temp"%string, JFloat 45); ("hum"%string, JFloat 5)])]
              (set_alerts 42 (initial_state Missing))))
    = [] ++ new
    /\ (List.length new <= 1)%nat.
Proof.
  destruct (alerts_go_to_the_set_channel
              [sample_update (JObj [("temp"%string, JFloat 45); ("hum"%string, JFloat 5)])]
              42 (set_alerts 42 (initial_state Missing)) eq_refl)
    as (new & Hnew & _ & Hlen).
  exists new. split; [ exact Hnew | exact Hlen ].
Defined.

(** ** The latest reading *)

Lemma latest_app (data : list reading) e : latest (data ++ [e]) = Some e.
Proof. unfold latest. rewrite rev_app_distr. reflexivity. Qed.

Lemma slice_from_keeps_last (data : list reading) e :
  exists older, Py.slice_from (- MAX_DATA_POINTS) (data ++ [e]) = older ++ [e].
Proof.
  rewrite slice_from_last_n by reflexivity. unfold last_n.
  rewrite length_app. cbn [List.length].
  exists (skipn (List.length data + 1 - Z.to_nat MAX_DATA_POINTS) data).
  rewrite skipn_app.
  replace (List.length data + 1 - Z.to_nat MAX_DATA_POINTS - List.length data)%nat
    with 0%nat by (unfold MAX_DATA_POINTS; lia).
  reflexivity.
Qed.

(** X6.  After a call of [/update] that stores a reading, [!temp] and
    [!sulcata_status] report that reading. *)
Theorem commands_report_the_stored_reading (i : update_input) (st : state)
  (e : reading) :
  entry_of i = Some e ->
  send_temp (fst (update_data i st))
  = Weather_Station_Report (time e) (temp e) (hum e)
  /\ sulcata_status (fst (update_data i st))
     = Environment_Status (time e) (temp e) (temperature_status (temp e))
                          (hum e) (humidity_status (hum e)).
Proof.
  intros He.
  assert (Hlatest : latest (sensor_data (fst (update_data i st))) = Some e).
  { rewrite update_data_sensor_data, He.
    destruct (MAX_DATA_POINTS <? Py.len (sensor_data st ++ [e])).
    - destruct (slice_from_keeps_last (sensor_data st) e) as [older ->].
      apply latest_app.
    - apply latest_app. }
  unfold send_temp, sulcata_status. rewrite Hlatest. split; reflexivity.
Qed.

Lemma commands_report_the_stored_reading_witness :
  send_temp
    (fst (update_data
            (sample_update (JObj [("temp"%string, JFloat 28); ("hum"%string, JFloat 50)]))
            (set_sensor_data (initial_state Missing) [sample_reading 20 0])))
  = Weather_Station_Report (mkTimestamp 2024 3 1 12 0 0 0 0) 28 50.
Proof.
  apply (commands_report_the_stored_reading
           (sample_update (JObj [("temp"%string, JFloat 28); ("hum"%string, JFloat 50)]))
           (set_sensor_data (initial_state Missing) [sample_reading 20 0])
           (mkReading 28 50 (mkTimestamp 2024 3 1 12 0 0 0 0) [])).
  reflexivity.
Defined.

(** ** Extra fields of a payload *)

Lemma dict_mem_not_in {V} key (d : list (string * V)) :
  ~ In key (map fst d) -> dict_mem key d = false.
Proof.
  unfold dict_mem. induction d as [|[k v] d IH]; cbn [dict_get map fst In];
    [ reflexivity | ].
  intros Hn. destruct (String.eqb k key) eqn:E.
  - apply String.eqb_eq in E. tauto.
  - apply IH. tauto.
Qed.

Lemma add_extra_fields_filter items :
  forall acc,
    NoDup (map fst items) ->
    (forall k, In k (map fst acc) -> ~ In k (map fst items)) ->
    add_extra_fields items acc
    = acc ++ filter (fun kv => negb (core_key (fst kv))) items.
Proof.
  induction items as [|[key v] items IH]; intros acc Hnd Hdis;
    cbn [add_extra_fields filter fst]; [ symmetry; apply app_nil_r | ].
  cbn [map fst] in Hnd. inversion Hnd as [|? ? Hnotin Hnd']; subst.
  rewrite (dict_mem_not_in key acc).
  2:{ intros Hin. apply (Hdis key Hin). left. reflexivity. }
  rewrite orb_false_r.
  destruct (core_key key); cbn [negb].
  - apply IH; [ exact Hnd' | ].
    intros k Hin Hin'. apply (Hdis k Hin). right. exact Hin'.
  - rewrite IH; [ rewrite <- app_assoc; reflexivity | exact Hnd' | ].
    intros k Hin Hin'. rewrite map_app in Hin. apply in_app_or in Hin.
    destruct Hin as [Hin|[<-|[]]].
    + apply (Hdis k Hin). right. exact Hin'.
    + apply Hnotin. exact Hin'.
Qed.

(** X7.  An entry keeps the fields of its payload beyond [temp], [hum] and
    [time] as they are and in their order; its time is the server's
    clock, and a [time] of the payload is dropped. *)
Theorem extra_fields_kept_verbatim (fields : list (string * json))
  (now : Timestamp) (e : reading) :
  NoDup (map fst fields) ->
  build_entry (JObj fields) now = inr (Some e) ->
  extra e = filter (fun kv => negb (core_key (fst kv))) fields
  /\ time e = now
  /\ dict_get "time" (extra e) = None
  /\ encode_entry e
     = JObj ([("temp"%string, JFloat (temp e)); ("hum"%string, JFloat (hum e));
              ("time"%string, JStr (Time.isoformat now))]
             ++ filter (fun kv => negb (core_key (fst kv))) fields).
Proof.
  intros Hnd. unfold build_entry.
  destruct (negb (dict_mem "temp" fields) || negb (dict_mem "hum" fields));
    [ discriminate | ].
  destruct (dict_get "temp" fields) as [tv|]; [ | discriminate ].
  destruct (dict_get "hum" fields) as [hv|]; [ | discriminate ].
  destruct (py_float tv) as [t|]; [ | discriminate ].
  destruct (py_float hv) as [h|]; [ | discriminate ].
  intros [= <-]. cbn [extra time temp hum].
  rewrite add_extra_fields_filter; [ | exact Hnd | intros k [] ]. cbn [app].
  split; [ reflexivity | ]. split; [ reflexivity | ].
  split; [ | reflexivity ].
  clear. induction fields as [|[k v] fields IH]; cbn [filter fst]; [ reflexivity | ].
  destruct (core_key k) eqn:Ek; cbn [negb]; [ exact IH | ].
  cbn [dict_get]. destruct (String.eqb k "time") eqn:E; [ | exact IH ].
  unfold core_key in Ek. rewrite E, orb_true_r in Ek. discriminate.
Qed.

Lemma extra_fields_kept_verbatim_witness :
  extra (mkReading 28 50 (mkTimestamp 2024 3 1 12 0 0 0 0)
                   [("battery"%string, JInt 97); ("site"%string, JStr "pen")])
  = [("battery"%string, JInt 97); ("site"%string, JStr "pen")].
Proof.
  apply (extra_fields_kept_verbatim
           [("battery"%string, JInt 97); ("temp"%string, JInt 28);
            ("time"%string, JStr "1999-01-01T00:00:00"); ("site"%string, JStr "pen");
            ("hum"%string, JStr "50")]
           (mkTimestamp 2024 3 1 12 0 0 0 0)
           (mkReading 28 50 (mkTimestamp 2024 3 1 12 0 0 0 0)
                      [("battery"%string, JInt 97); ("site"%string, JStr "pen")])).
  - repeat constructor; cbn; intuition discriminate.
  - reflexivity.
Defined.

(** ** The answer of [/data] *)

Lemma slice_from_incl {A} (start : Z) (l : list A) : incl (Py.slice_from start l) l.
Proof.
  unfold Py.slice_from. intros x Hin.
  rewrite <- (firstn_skipn (Z.to_nat
    (if start <? 0 then Z.max (Z.of_nat (List.length l) + start) 0 else start)) l).
  apply in_or_app. right. exact Hin.
Qed.

Lemma time_filter_incl hours now data : incl (time_filter hours now data) data.
Proof.
  unfold time_filter. destruct hours as [h|]; [ | apply incl_refl ].
  destruct (h =? 0); [ apply incl_refl | ].
  intros x Hin. apply filter_In in Hin. tauto.
Qed.

Lemma Forall_of_incl {A} (P : A -> Prop) (l l' : list A) :
  incl l l' -> Forall P l' -> Forall P l.
Proof. intros Hi H. rewrite Forall_forall in *. auto. Qed.

(** X8.  A positive [limit] keeps the last [limit] readings that pass the
    time filter, in their order; a negative one drops that many from
    the front instead.  That is what the handler returns, and what the
    client is answered when JSON can spell each of these readings; when
    one holds a NaN or an infinity the answer is a 500.  Whatever the
    limit, the entries of an answer decode to readings of the store. *)
Theorem get_data_window (hours : option Z) (now : Timestamp) (st : state) :
  (forall l,
      0 < l ->
      exists older,
        time_filter hours now (sensor_data st)
        = older ++ last_n l (time_filter hours now (sensor_data st))
        /\ get_data hours (Some l) now st
           = Returns (map encode_entry
                        (last_n l (time_filter hours now (sensor_data st))))
        /\ GET_data hours (Some l) now st
           = (if forallb spellable
                   (last_n l (time_filter hours now (sensor_data st)))
              then Data (map encode_entry
                           (last_n l (time_filter hours now (sensor_data st))))
              else Internal_Server_Error)
        /\ Py.len (last_n l (time_filter hours now (sensor_data st)))
           = Z.min (Py.len (time_filter hours now (sensor_data st))) l)
  /\ (forall l,
         l < 0 ->
         get_data hours (Some l) now st
         = Returns (map encode_entry
                      (skipn (Z.to_nat (- l))
                         (time_filter hours now (sensor_data st))))
         /\ GET_data hours (Some l) now st
            = (if forallb spellable
                    (skipn (Z.to_nat (- l))
                       (time_filter hours now (sensor_data st)))
               then Data (map encode_entry
                            (skipn (Z.to_nat (- l))
                               (time_filter hours now (sensor_data st))))
               else Internal_Server_Error))
  /\ (forall l result,
         Forall storable (sensor_data st) ->
         GET_data hours (Some l) now st = Data result ->
         exists kept,
           decode_entries result = Some kept
           /\ result = map encode_entry kept
           /\ incl kept (sensor_data st)
           /\ forallb spellable kept = true).
Proof.
  split; [ | split ].
  - intros l Hl. rewrite GET_data_some, get_data_some, slice_from_last_n by exact Hl.
    eexists. split; [ | split; [ reflexivity | split;
                                 [ reflexivity | apply last_n_length; lia ] ] ].
    unfold last_n. symmetry. apply firstn_skipn.
  - intros l Hl. rewrite GET_data_some, get_data_some. unfold Py.slice_from.
    replace (- l <? 0) with false by (symmetry; apply Z.ltb_ge; lia).
    split; reflexivity.
  - intros l result Hst. rewrite GET_data_some.
    set (kept := Py.slice_from (- l) (time_filter hours now (sensor_data st))).
    destruct (forallb spellable kept) eqn:Hsp; [ | discriminate ].
    intros [= <-].
    assert (Hincl : incl kept (sensor_data st)).
    { eapply incl_tran; [ apply slice_from_incl | apply time_filter_incl ]. }
    exists kept. split; [ | split; [ reflexivity | split; [ exact Hincl | exact Hsp ] ] ].
    apply decode_encode_entries. eapply Forall_of_incl; eassumption.
Qed.

Lemma get_data_window_witness :
  get_data (Some 24) (Some (-1)) (mkTimestamp 2024 3 1 13 0 0 0 0)
    (set_sensor_data (initial_state Missing)
       [sample_reading 28 0; sample_reading 29 1; sample_reading 30 2])
  = Returns (map encode_entry [sample_reading 29 1; sample_reading 30 2])
  /\ GET_data (Some 24) (Some (-1)) (mkTimestamp 2024 3 1 13 0 0 0 0)
       (set_sensor_data (initial_state Missing)
          [sample_reading 28 0; sample_reading 29 1; sample_reading 30 2])
     = Data (map encode_entry [sample_reading 29 1; sample_reading 30 2]).
Proof.
  apply (proj1 (proj2 (get_data_window (Some 24) (mkTimestamp 2024 3 1 13 0 0 0 0)
           (set_sensor_data (initial_state Missing)
              [sample_reading 28 0; sample_reading 29 1; sample_reading 30 2])))
           (-1)).
  lia.
Defined.

(** ** The window of [!plot_savgol] *)

(** X9.  When [!plot_savgol] reaches the filter, the window it hands over is
    odd: the requested one, or the next integer when that was even; the
    order is the requested one; and the frame has more rows than the
    window, all those of the last [hours] hours. *)
Theorem savgol_window_is_odd (now : Timestamp) (hours window poly : Z)
  (st : state) (w p : Z) (df : list reading) :
  send_plot_savgol now hours window poly st = Savgol_filter_called w p df ->
  w mod 2 = 1
  /\ window <= w <= window + 1
  /\ p = poly
  /\ w < Py.len df
  /\ Py.len df = Py.len (plot_frame now hours st).
Proof.
  unfold send_plot_savgol, plot_frame.
  destruct (sensor_data st) as [|r data]; [ discriminate | ].
  set (frame := filter _ (r :: data)).
  destruct ((Py.len frame =? 0) || (Py.len frame <=? _)) eqn:E; [ discriminate | ].
  apply orb_false_iff in E. destruct E as [_ E]. apply Z.leb_gt in E.
  intros [= <- <- <-].
  assert (Hlen : Py.len (Pandas.sort_values (fun r0 => Time.value (time r0)) frame)
                 = Py.len frame).
  { unfold Py.len.
    rewrite (proj1 (sort_values_facts (fun r0 => Time.value (time r0))
                      (fun _ => true) frame)).
    reflexivity. }
  rewrite Hlen.
  destruct (window mod 2 =? 0) eqn:Ev.
  - apply Z.eqb_eq in Ev. repeat split; try lia.
    rewrite Z.add_mod, Ev by lia. reflexivity.
  - apply Z.eqb_neq in Ev. pose proof (Z.mod_pos_bound window 2). repeat split; lia.
Qed.

Lemma savgol_window_is_odd_witness :
  exists w df,
    send_plot_savgol (mkTimestamp 2024 3 1 13 0 0 0 0) 24 6 3
      (set_sensor_data (initial_state Missing)
         (map (sample_reading 28) [0; 1; 2; 3; 4; 5; 6; 7; 8]))
    = Savgol_filter_called w 3 df
    /\ w mod 2 = 1 /\ w < Py.len df.
Proof.
  exists 7, (map (sample_reading 28) [0; 1; 2; 3; 4; 5; 6; 7; 8]).
  destruct (savgol_window_is_odd (mkTimestamp 2024 3 1 13 0 0 0 0) 24 6 3
              (set_sensor_data (initial_state Missing)
                 (map (sample_reading 28) [0; 1; 2; 3; 4; 5; 6; 7; 8]))
              7 3
              (map (sample_reading 28) [0; 1; 2; 3; 4; 5; 6; 7; 8]) eq_refl)
    as (Hodd & _ & _ & Hlen & _).
  split; [ reflexivity | split; [ exact Hodd | exact Hlen ] ].
Defined.

Local Open Scope float_scope.

(** ** Statistics *)

Lemma SFleb_refl a : SFeqb a a = true -> SFleb a a = true.
Proof. unfold SFeqb. sf_order. Qed.

Lemma float_leb_refl x : PrimFloat.is_nan x = false -> (x <=? x) = true.
Proof.
  unfold PrimFloat.is_nan. rewrite negb_false_iff, FloatAxioms.eqb_spec, FloatAxioms.leb_spec.
  apply SFleb_refl.
Qed.

Lemma dropna_not_nan col : Forall (fun x => PrimFloat.is_nan x = false) (Series.dropna col).
Proof.
  unfold Series.dropna. apply Forall_forall. intros x Hin.
  apply filter_In in Hin. destruct Hin as [_ H]. apply negb_true_iff in H. exact H.
Qed.

Lemma dropna_in col x :
  In x col -> PrimFloat.is_nan x = false -> In x (Series.dropna col).
Proof.
  intros Hin Hn. unfold Series.dropna. apply filter_In. rewrite Hn. auto.
Qed.

(** The running minimum of numbers is one of them and below each. *)
Lemma running_min rest :
  forall m,
    PrimFloat.is_nan m = false ->
    Forall (fun x => PrimFloat.is_nan x = false) rest ->
    let r := fold_left (fun m y => if y <? m then y else m) rest m in
    PrimFloat.is_nan r = false
    /\ In r (m :: rest)
    /\ Forall (fun x => (r <=? x) = true) (m :: rest).
Proof.
  induction rest as [|y rest IH]; intros m Hm Hrest; cbn [fold_left].
  - repeat split; [ exact Hm | left; reflexivity | ].
    constructor; [ apply float_leb_refl; exact Hm | constructor ].
  - inversion Hrest as [|? ? Hy Hrest']; subst.
    set (m' := if y <? m then y else m).
    assert (Hm' : PrimFloat.is_nan m' = false) by (subst m'; destruct (y <? m); assumption).
    assert (Hle : (m' <=? m) = true /\ (m' <=? y) = true).
    { subst m'. destruct (y <? m) eqn:E.
      - split; [ apply ltb_leb; exact E | apply float_leb_refl; exact Hy ].
      - split; [ apply float_leb_refl; exact Hm | apply not_ltb_leb; assumption ]. }
    destruct (IH m' Hm' Hrest') as (Hr & Hin & Hall). cbv zeta in *.
    inversion Hall as [|? ? Hrm' Hall']; subst.
    split; [ exact Hr | split ].
    + destruct Hin as [Hin|Hin]; [ | right; right; exact Hin ].
      rewrite <- Hin. subst m'. destruct (y <? m); [ right; left | left ]; reflexivity.
    + constructor; [ eapply leb_trans; [ exact Hrm' | apply Hle ] | ].
      constructor; [ eapply leb_trans; [ exact Hrm' | apply Hle ] | exact Hall' ].
Qed.

Lemma running_max rest :
  forall m,
    PrimFloat.is_nan m = false ->
    Forall (fun x => PrimFloat.is_nan x = false) rest ->
    let r := fold_left (fun m y => if m <? y then y else m) rest m in
    PrimFloat.is_nan r = false
    /\ In r (m :: rest)
    /\ Forall (fun x => (x <=? r) = true) (m :: rest).
Proof.
  induction rest as [|y rest IH]; intros m Hm Hrest; cbn [fold_left].
  - repeat split; [ exact Hm | left; reflexivity | ].
    constructor; [ apply float_leb_refl; exact Hm | constructor ].
  - inversion Hrest as [|? ? Hy Hrest']; subst.
    set (m' := if m <? y then y else m).
    assert (Hm' : PrimFloat.is_nan m' = false) by (subst m'; destruct (m <? y); assumption).
    assert (Hle : (m <=? m') = true /\ (y <=? m') = true).
    { subst m'. destruct (m <? y) eqn:E.
      - split; [ apply ltb_leb; exact E | apply float_leb_refl; exact Hy ].
      - split; [ apply float_leb_refl; exact Hm | apply not_ltb_leb; assumption ]. }
    destruct (IH m' Hm' Hrest') as (Hr & Hin & Hall). cbv zeta in *.
    inversion Hall as [|? ? Hrm' Hall']; subst.
    split; [ exact Hr | split ].
    + destruct Hin as [Hin|Hin]; [ | right; right; exact Hin ].
      rewrite <- Hin. subst m'. destruct (m <? y); [ right; left | left ]; reflexivity.
    + constructor; [ eapply leb_trans; [ apply Hle | exact Hrm' ] | ].
      constructor; [ eapply leb_trans; [ apply Hle | exact Hrm' ] | exact Hall' ].
Qed.

(** The minimum and the maximum of a column that holds a number are
    numbers of the column and bound every number of it. *)
Lemma series_min_max col x :
  In x col -> PrimFloat.is_nan x = false ->
  In (Series.min col) col /\ In (Series.max col) col
  /\ (Series.min col <=? x) = true /\ (x <=? Series.max col) = true.
Proof.
  intros Hin Hn. pose proof (dropna_in col x Hin Hn) as Hx.
  pose proof (dropna_not_nan col) as Hall.
  assert (Hsub : forall y, In y (Series.dropna col) -> In y col).
  { intros y Hy. unfold Series.dropna in Hy. apply filter_In in Hy. tauto. }
  unfold Series.min, Series.max.
  destruct (Series.dropna col) as [|m rest]; [ destruct Hx | ].
  inversion Hall as [|? ? Hm Hrest]; subst.
  destruct (running_min rest m Hm Hrest) as (_ & Hi1 & Hb1).
  destruct (running_max rest m Hm Hrest) as (_ & Hi2 & Hb2).
  cbv zeta in *. rewrite Forall_forall in Hb1, Hb2. auto.
Qed.

(** X10.  The statistics [!stats] reports are taken over the readings of the
    last [hours] hours: the minimum and the maximum of each quantity
    are values of such readings, and every such reading that is a
    number lies between them.  With no reading in the window the
    command reports that, not statistics. *)
Theorem send_stats_bounds (now : Timestamp) (hours : Z) (st : state) :
  (forall t_min t_max t_avg h_min h_max h_avg,
      send_stats now hours st
      = Weather_Statistics hours t_min t_max t_avg h_min h_max h_avg ->
      forall r,
        In r (plot_frame now hours st) ->
        (PrimFloat.is_nan (temp r) = false ->
         (t_min <=? temp r) = true /\ (temp r <=? t_max) = true
         /\ In t_min (map temp (plot_frame now hours st))
         /\ In t_max (map temp (plot_frame now hours st)))
        /\ (PrimFloat.is_nan (hum r) = false ->
            (h_min <=? hum r) = true /\ (hum r <=? h_max) = true
            /\ In h_min (map hum (plot_frame now hours st))
            /\ In h_max (map hum (plot_frame now hours st))))
  /\ (plot_frame now hours st = [] ->
      send_stats now hours st = Stats_no_data_available_yet
      \/ send_stats now hours st = Stats_no_data_for_the_last hours).
Proof.
  unfold send_stats, plot_frame. split.
  - intros t_min t_max t_avg h_min h_max h_avg.
    destruct (sensor_data st) as [|r0 data]; [ discriminate | ].
    set (frame := filter _ (r0 :: data)).
    destruct (Py.len frame =? 0)%Z; [ discriminate | ].
    intros [= <- <- _ <- <- _] r Hin. split; intros Hn.
    + destruct (series_min_max (map temp frame) (temp r) (in_map temp _ _ Hin) Hn)
        as (A & B & C & D). auto.
    + destruct (series_min_max (map hum frame) (hum r) (in_map hum _ _ Hin) Hn)
        as (A & B & C & D). auto.
  - destruct (sensor_data st) as [|r0 data]; [ left; reflexivity | ].
    intros ->. right. reflexivity.
Qed.

Lemma send_stats_bounds_witness :
  (Series.min [28; 31; 29] <=? 29) = true /\ (29 <=? Series.max [28; 31; 29]) = true.
Proof.
  destruct (proj1 (send_stats_bounds (mkTimestamp 2024 3 1 13 0 0 0 0) 24
              (set_sensor_data (initial_state Missing)
                 [sample_reading 28 0; sample_reading 31 1; sample_reading 29 2]))
              _ _ _ _ _ _ eq_refl (sample_reading 29 2)) as [Ht _].
  - right. right. left. reflexivity.
  - destruct (Ht eq_refl) as (A & B & _). split; [ exact A | exact B ].
Defined.

Local Open Scope Z_scope.

(** ** What a restart finds *)

Lemma load_sensor_data_data_file st : data_file (load_sensor_data st) = data_file st.
Proof.
  unfold load_sensor_data. destruct (data_file st) as [| |j] eqn:E; [ exact E | | ];
    match goal with
    | |- context [read_data_file ?f] => destruct (read_data_file f)
    end; exact E.
Qed.

(** A second load reads the same series again. *)
Lemma load_sensor_data_again st :
  sensor_data (load_sensor_data (load_sensor_data st))
  = sensor_data (load_sensor_data st).
Proof.
  unfold load_sensor_data at 1. rewrite load_sensor_data_data_file.
  unfold load_sensor_data.
  destruct (data_file st) as [| |j]; [ reflexivity | | ];
    match goal with
    | |- context [read_data_file ?f] => destruct (read_data_file f)
    end; reflexivity.
Qed.

Lemma recovered_saved (data : list reading) :
  Py.len data <= MAX_DATA_POINTS ->
  Forall storable data ->
  recovered (Doc (JArr (map encode_entry data))) = data.
Proof.
  intros Hlen Hst. unfold recovered, load_sensor_data.
  cbn [initial_state data_file read_data_file].
  rewrite decode_encode_entries by exact Hst.
  cbn [logger set_sensor_data sensor_data].
  rewrite slice_from_last_n by reflexivity. apply last_n_all. exact Hlen.
Qed.

(** The data file after one call: written when the call stores a reading
    and leaves a number of them divisible by 10. *)
Lemma update_data_data_file i st :
  data_file (fst (update_data i st))
  = match entry_of i with
    | Some e =>
        if Py.len (sensor_data (fst (update_data i st))) mod 10 =? 0
        then match file_write i with
             | Written =>
                 Doc (JArr (map encode_entry (sensor_data (fst (update_data i st)))))
             | WriteFailed remains => remains
             end
        else data_file st
    | None => data_file st
    end.
Proof.
  pose proof (update_data_sensor_data i st) as Hs. revert Hs.
  unfold update_data, entry_of. destruct (body i) as [|data]; [ reflexivity | ].
  destruct (build_entry data (now i)) as [code|[e|]]; try reflexivity.
  cbn [fst]. intros Hs. rewrite Hs.
  rewrite (proj2 (check_conditions_and_alert_sensor_data _ _ _ _ _)).
  cbn [logger data_file].
  match goal with
  | |- data_file (if Py.len (sensor_data ?s2) mod 10 =? 0 then _ else _) = _ =>
      assert (Hs2 : sensor_data s2
                    = if MAX_DATA_POINTS <? Py.len (sensor_data st ++ [e])
                      then Py.slice_from (- MAX_DATA_POINTS) (sensor_data st ++ [e])
                      else sensor_data st ++ [e])
        by (cbn [set_sensor_data sensor_data];
            destruct (MAX_DATA_POINTS <? Py.len (sensor_data st ++ [e])); reflexivity);
      assert (Hf2 : data_file s2 = data_file st)
        by (cbn [set_sensor_data sensor_data];
            destruct (MAX_DATA_POINTS <? Py.len (sensor_data st ++ [e])); reflexivity);
      rewrite Hs2;
      destruct (Py.len (if MAX_DATA_POINTS <? Py.len (sensor_data st ++ [e])
                        then Py.slice_from (- MAX_DATA_POINTS) (sensor_data st ++ [e])
                        else sensor_data st ++ [e]) mod 10 =? 0);
      [ destruct (file_write i); cbn [save_sensor_data logger set_data_file data_file];
        rewrite ?Hs2; reflexivity
      | exact Hf2 ]
  end.
Qed.

Lemma update_data_keeps_behind i st :
  file_write i = Written ->
  Time.valid (now i) = true ->
  behind_by_less_than_ten st ->
  behind_by_less_than_ten (fst (update_data i st)).
Proof.
  intros Hw Hv (Hst & Hlen & recent & Hrec & Hrecent).
  pose proof (update_data_keeps_last_n i st Hlen) as Hs.
  pose proof (update_data_data_file i st) as Hf.
  destruct (entry_of i) as [e|] eqn:He.
  - assert (Hst' : Forall storable (sensor_data (fst (update_data i st)))).
    { rewrite Hs. apply Forall_last_n, Forall_app. split; [ exact Hst | ].
      constructor; [ eapply entry_of_storable; eassumption | constructor ]. }
    assert (Hlen' : Py.len (sensor_data (fst (update_data i st))) <= MAX_DATA_POINTS).
    { rewrite Hs, last_n_length by (unfold MAX_DATA_POINTS; lia). lia. }
    split; [ exact Hst' | ]. split; [ exact Hlen' | ].
    destruct (Py.len (sensor_data (fst (update_data i st))) mod 10 =? 0) eqn:E.
    + rewrite Hw in Hf. rewrite Hf.
      exists []. rewrite recovered_saved by assumption.
      rewrite app_nil_r. split; [ reflexivity | ].
      apply Z.eqb_eq in E. rewrite E. cbn. lia.
    + rewrite Hf. apply Z.eqb_neq in E.
      assert (Hgrow : sensor_data (fst (update_data i st)) = sensor_data st ++ [e]).
      { rewrite Hs. apply last_n_all.
        revert E. rewrite Hs, last_n_length by (unfold MAX_DATA_POINTS; lia).
        unfold Py.len in *. rewrite length_app in *. cbn [List.length] in *.
        intros E.
        destruct (Z.le_gt_cases (Z.of_nat (List.length (sensor_data st) + 1)) MAX_DATA_POINTS)
          as [Hle|Hgt]; [ exact Hle | ].
        exfalso. apply E. rewrite Z.min_r by lia. reflexivity. }
      exists (recent ++ [e]). rewrite Hgrow. split.
      * rewrite Hrec at 1. rewrite app_assoc. reflexivity.
      * rewrite Hgrow in E. unfold Py.len in *.
        rewrite !length_app in *. cbn [List.length] in *.
        rewrite !Nat2Z.inj_add in *. cbn [Z.of_nat Pos.of_succ_nat] in *.
        pose proof (Z.mod_pos_bound (Z.of_nat (List.length (sensor_data st))) 10 ltac:(lia)).
        pose proof (Z.mod_pos_bound (Z.of_nat (List.length (sensor_data st)) + 1) 10 ltac:(lia)).
        pose proof (Z.div_mod (Z.of_nat (List.length (sensor_data st))) 10 ltac:(lia)).
        pose proof (Z.div_mod (Z.of_nat (List.length (sensor_data st)) + 1) 10 ltac:(lia)).
        lia.
  - rewrite app_nil_r in Hs. rewrite last_n_all in Hs by exact Hlen.
    unfold behind_by_less_than_ten. rewrite Hf, Hs.
    split; [ exact Hst | ]. split; [ exact Hlen | ]. exists recent. auto.
Qed.

Lemma run_updates_keeps_behind inputs :
  forall st,
    Forall (fun i => file_write i = Written) inputs ->
    Forall (fun i => Time.valid (now i) = true) inputs ->
    behind_by_less_than_ten st ->
    behind_by_less_than_ten (fst (run_updates inputs st)).
Proof.
  induction inputs as [|i inputs IH]; intros st Hw Hv Hb; [ exact Hb | ].
  rewrite run_updates_cons.
  inversion Hw; inversion Hv; subst.
  apply IH; try assumption. apply update_data_keeps_behind; assumption.
Qed.

Lemma main_behind f : behind_by_less_than_ten (main f).
Proof.
  unfold main, startup_event. cbn [fst].
  split; [ | split ].
  - apply load_sensor_data_storable, load_sensor_data_storable. constructor.
  - apply load_sensor_data_bound, load_sensor_data_bound. cbn. unfold MAX_DATA_POINTS. lia.
  - exists []. rewrite app_nil_r, !load_sensor_data_data_file.
    cbn [initial_state data_file]. split.
    + rewrite load_sensor_data_again. reflexivity.
    + cbn. apply Z.mod_pos_bound. lia.
Qed.

(** X11.  When every write of the file succeeds, the file is never ten
    readings behind the store: at any point of a run of [/update] calls
    a new process would load all the readings of the store but the
    last few, fewer than ten. *)
Theorem crash_loses_less_than_ten (f : file) (inputs : list update_input) :
  Forall (fun i => file_write i = Written) inputs ->
  Forall (fun i => Time.valid (now i) = true) inputs ->
  exists recent,
    sensor_data (fst (run_updates inputs (main f)))
    = sensor_data (main (data_file (fst (run_updates inputs (main f))))) ++ recent
    /\ Py.len recent <= Py.len (sensor_data (fst (run_updates inputs (main f)))) mod 10
    /\ Py.len recent < 10.
Proof.
  intros Hw Hv.
  destruct (run_updates_keeps_behind inputs (main f) Hw Hv (main_behind f))
    as (_ & _ & recent & Hrec & Hlen).
  exists recent. split; [ | split; [ exact Hlen | ] ].
  - unfold main at 2, startup_event. cbn [fst].
    rewrite load_sensor_data_again. exact Hrec.
  - pose proof (Z.mod_pos_bound
                  (Py.len (sensor_data (fst (run_updates inputs (main f))))) 10
                  ltac:(lia)).
    lia.
Qed.

Lemma crash_loses_less_than_ten_witness :
  exists recent,
    sensor_data
      (fst (run_updates
              [sample_update (JObj [("temp"%string, JFloat 28); ("hum"%string, JFloat 50)])]
              (main Missing)))
    = sensor_data
        (main (data_file
                 (fst (run_updates
                         [sample_update (JObj [("temp"%string, JFloat 28); ("hum"%string, JFloat 50)])]
                         (main Missing)))))
      ++ recent
    /\ Py.len recent < 10.
Proof.
  destruct (crash_loses_less_than_ten Missing
              [sample_update (JObj [("temp"%string, JFloat 28); ("hum"%string, JFloat 50)])])
    as (recent & Hrec & _ & Hlen).
  - repeat constructor.
  - repeat constructor.
  - exists recent. split; [ exact Hrec | exact Hlen ].
Defined.

(** X12.  A clean restart gives back the series: what [shutdown_event] saves,
    the start-up of the next process loads.  The alert channel and the
    cooldown are not saved: the next process has no channel until
    [!set_alerts] is sent again. *)
Theorem restart_restores_the_series (st : state) :
  Py.len (sensor_data st) <= MAX_DATA_POINTS ->
  Forall storable (sensor_data st) ->
  sensor_data (main (data_file (fst (shutdown_event Written st)))) = sensor_data st
  /\ ALERT_CHANNEL_ID (main (data_file (fst (shutdown_event Written st)))) = None
  /\ no_alert_channel (main (data_file (fst (shutdown_event Written st)))) = true.
Proof.
  intros Hlen Hst. unfold main, startup_event, shutdown_event. cbn [fst].
  rewrite load_sensor_data_again.
  assert (Hfile : data_file (save_sensor_data Written st)
                  = Doc (JArr (map encode_entry (sensor_data st)))) by reflexivity.
  rewrite Hfile. split.
  - apply (recovered_saved (sensor_data st) Hlen Hst).
  - unfold no_alert_channel, load_sensor_data.
    cbn [initial_state data_file read_data_file].
    rewrite decode_encode_entries by exact Hst. cbn.
    rewrite decode_encode_entries by exact Hst. cbn. auto.
Qed.

Lemma restart_restores_the_series_witness :
  sensor_data
    (main (data_file
             (fst (shutdown_event Written
                     (set_alerts 42
                        (set_sensor_data (initial_state Missing)
                           [sample_reading 28 0; sample_reading 29 1]))))))
  = [sample_reading 28 0; sample_reading 29 1].
Proof.
  apply (restart_restores_the_series
           (set_alerts 42
              (set_sensor_data (initial_state Missing)
                 [sample_reading 28 0; sample_reading 29 1]))).
  - cbn. unfold MAX_DATA_POINTS. lia.
  - repeat constructor.
Defined.

(** ** Order of arrival and order of time *)

Lemma entry_of_time i e : entry_of i = Some e -> time e = now i.
Proof.
  unfold entry_of, build_entry. destruct (body i) as [|data]; [ discriminate | ].
  destruct data; try discriminate.
  destruct (negb (dict_mem "temp" fields) || negb (dict_mem "hum" fields));
    [ discriminate | ].
  destruct (dict_get "temp" fields) as [tv|]; [ | discriminate ].
  destruct (dict_get "hum" fields) as [hv|]; [ | discriminate ].
  destruct (py_float tv); [ | discriminate ].
  destruct (py_float hv); [ | discriminate ].
  intros [= <-]. reflexivity.
Qed.

Lemma appended_times inputs :
  forall e, In e (appended inputs) ->
            exists i, In i inputs /\ time_key e = Time.value (now i).
Proof.
  induction inputs as [|i inputs IH]; intros e Hin; [ destruct Hin | ].
  cbn [appended flat_map] in Hin. apply in_app_or in Hin. destruct Hin as [Hin|Hin].
  - destruct (entry_of i) as [e'|] eqn:E; [ | destruct Hin ].
    destruct Hin as [<-|[]]. exists i. split; [ left; reflexivity | ].
    unfold time_key. rewrite (entry_of_time i e' E). reflexivity.
  - destruct (IH e Hin) as (j & Hj & Hk). exists j. split; [ right; exact Hj | exact Hk ].
Qed.

Lemma appended_chronological inputs :
  clock_ordered inputs -> chronological (appended inputs).
Proof.
  unfold clock_ordered, chronological.
  induction inputs as [|i inputs IH]; cbn [map appended flat_map]; intros Hs;
    [ constructor | ].
  apply StronglySorted_inv in Hs. destruct Hs as [Hs Hall].
  specialize (IH Hs).
  destruct (entry_of i) as [e|] eqn:E; [ | exact IH ].
  cbn [app map]. constructor; [ exact IH | ].
  apply Forall_forall. intros k Hk. apply in_map_iff in Hk.
  destruct Hk as (e' & <- & He').
  destruct (appended_times inputs e' He') as (j & Hj & ->).
  unfold time_key. rewrite (entry_of_time i e E).
  rewrite Forall_forall in Hall. apply Hall.
  apply in_map_iff. exists j. auto.
Qed.

Lemma StronglySorted_skipn {A} (R : A -> A -> Prop) k :
  forall l, StronglySorted R l -> StronglySorted R (skipn k l).
Proof.
  induction k as [|k IH]; intros l Hs; [ exact Hs | ].
  destruct l as [|x l]; [ exact Hs | ]. cbn [skipn]. apply IH.
  apply StronglySorted_inv in Hs. tauto.
Qed.

Lemma chronological_last_n k data : chronological data -> chronological (last_n k data).
Proof.
  unfold chronological, last_n. intros H. rewrite <- skipn_map.
  apply StronglySorted_skipn. exact H.
Qed.

(** A reading inserted after readings that are not later goes last. *)
Lemma insert_by_last (x : reading) acc :
  Forall (fun y => time_key y <= time_key x) acc ->
  Pandas.insert_by time_key x acc = acc ++ [x].
Proof.
  induction 1 as [|y acc Hy _ IH]; cbn [Pandas.insert_by app]; [ reflexivity | ].
  replace (time_key x <? time_key y) with false by (symmetry; apply Z.ltb_ge; exact Hy).
  rewrite IH. reflexivity.
Qed.

Lemma fold_insert_sorted l :
  forall acc,
    chronological (acc ++ l) ->
    fold_left (fun acc x => Pandas.insert_by time_key x acc) l acc = acc ++ l.
Proof.
  induction l as [|x l IH]; intros acc Hs; cbn [fold_left];
    [ symmetry; apply app_nil_r | ].
  rewrite insert_by_last.
  - rewrite IH; rewrite <- app_assoc; [ reflexivity | exact Hs ].
  - unfold chronological in Hs. rewrite map_app in Hs. cbn [map] in Hs.
    clear IH. induction acc as [|y acc IHacc]; [ constructor | ].
    cbn [app map] in Hs. apply StronglySorted_inv in Hs. destruct Hs as [Hs Hall].
    constructor; [ | apply IHacc; exact Hs ].
    rewrite Forall_forall in Hall. apply Hall.
    apply in_or_app. right. left. reflexivity.
Qed.

(** Sorting by time leaves a chronological frame as it is. *)
Lemma sort_values_chronological l :
  chronological l -> Pandas.sort_values time_key l = l.
Proof. intros H. unfold Pandas.sort_values. apply (fold_insert_sorted l []). exact H. Qed.

(** The readings of a chronological series from a cutoff on are its
    end. *)
Lemma filter_chronological cutoff data :
  chronological data ->
  exists older,
    data = older ++ filter (fun r => Time.geb (time_key r) cutoff) data
    /\ Forall (fun r => time_key r < cutoff) older
    /\ chronological (filter (fun r => Time.geb (time_key r) cutoff) data).
Proof.
  unfold chronological.
  induction data as [|x data IH]; intros Hs; [ exists []; repeat split; constructor | ].
  cbn [map] in Hs. apply StronglySorted_inv in Hs. destruct Hs as [Hs Hall].
  cbn [filter].
  destruct (Time.geb (time_key x) cutoff) eqn:E; unfold Time.geb in E.
  - apply Z.leb_le in E. exists [].
    assert (Hid : filter (fun r => Time.geb (time_key r) cutoff) data = data).
    { apply forallb_filter_id. apply forallb_forall. intros r Hr.
      unfold Time.geb. apply Z.leb_le. rewrite Forall_forall in Hall.
      specialize (Hall (time_key r) (in_map time_key _ _ Hr)). lia. }
    rewrite Hid. repeat split; [ constructor | ].
    cbn [map]. constructor; assumption.
  - apply Z.leb_gt in E. destruct (IH Hs) as (older & Hd & Ho & Hc).
    exists (x :: older). cbn [app]. rewrite <- Hd. repeat split; [ | exact Hc ].
    constructor; assumption.
Qed.

Lemma StronglySorted_app {A} (R : A -> A -> Prop) (l1 l2 : list A) :
  StronglySorted R l1 -> StronglySorted R l2 ->
  (forall x y, In x l1 -> In y l2 -> R x y) ->
  StronglySorted R (l1 ++ l2).
Proof.
  induction l1 as [|a l1 IH]; intros H1 H2 Hx; [ exact H2 | ].
  apply StronglySorted_inv in H1. destruct H1 as [H1 Ha].
  cbn [app]. constructor.
  - apply IH; [ exact H1 | exact H2 | ]. intros x y Hin Hy. apply Hx; [ right | ]; assumption.
  - apply Forall_app. split; [ exact Ha | ].
    apply Forall_forall. intros y Hy. apply Hx; [ left; reflexivity | exact Hy ].
Qed.

(** X13.  Under a clock that never goes back the series is chronological:
    a run of [/update] calls on a chronological series within the
    bound, none of whose readings is later than the calls, leaves a
    chronological series. *)
Theorem series_stays_chronological (inputs : list update_input) (st : state) :
  Py.len (sensor_data st) <= MAX_DATA_POINTS ->
  chronological (sensor_data st) ->
  clock_ordered inputs ->
  (forall r i, In r (sensor_data st) -> In i inputs ->
               time_key r <= Time.value (now i)) ->
  chronological (sensor_data (fst (run_updates inputs st))).
Proof.
  intros Hlen Hst Hclock Hbefore.
  rewrite run_updates_keeps_last_n by exact Hlen.
  apply chronological_last_n. unfold chronological. rewrite map_app.
  apply StronglySorted_app; [ exact Hst | apply appended_chronological; exact Hclock | ].
  intros x y Hx Hy. apply in_map_iff in Hx, Hy.
  destruct Hx as (r & <- & Hr). destruct Hy as (e & <- & He).
  destruct (appended_times inputs e He) as (i & Hi & ->).
  apply Hbefore; assumption.
Qed.

Lemma series_stays_chronological_witness :
  chronological
    (sensor_data
       (fst (run_updates
               [mkUpdate (Body (JObj [("temp"%string, JFloat 28); ("hum"%string, JFloat 50)]))
                         (mkTimestamp 2024 3 1 12 5 0 0 0) 1709294700 Delivered Written;
                mkUpdate (Body (JObj [("temp"%string, JFloat 29); ("hum"%string, JFloat 51)]))
                         (mkTimestamp 2024 3 1 12 6 0 0 0) 1709294760 Delivered Written]
               (set_sensor_data (initial_state Missing) [sample_reading 27 0])))).
Proof.
  apply series_stays_chronological.
  - cbn. unfold MAX_DATA_POINTS. lia.
  - repeat constructor.
  - unfold clock_ordered. cbn. repeat constructor; lia.
  - intros r i [<-|[]] [<-|[<-|[]]]; cbn; lia.
Defined.

(** Of the orders of a frame with distinct timestamps, one is
    chronological. *)
Lemma sorted_permutation_unique (l1 : list reading) :
  strictly_chronological l1 ->
  forall l2, Permutation l2 l1 -> chronological l2 -> l2 = l1.
Proof.
  unfold strictly_chronological, chronological.
  induction l1 as [|x l1 IH]; intros Hs l2 Hp Hc.
  - apply Permutation_sym, Permutation_nil in Hp. exact Hp.
  - cbn [map] in Hs. apply StronglySorted_inv in Hs. destruct Hs as [Hs Hx].
    destruct l2 as [|y l2];
      [ apply Permutation_nil in Hp; discriminate | ].
    cbn [map] in Hc. apply StronglySorted_inv in Hc. destruct Hc as [Hc Hy].
    rewrite Forall_forall in Hx, Hy.
    assert (E : y = x).
    { assert (Hin : In x (y :: l2)).
      { eapply Permutation_in;
          [ apply Permutation_sym; exact Hp | left; reflexivity ]. }
      destruct Hin as [Hin|Hin]; [ exact Hin | ].
      assert (Hyin : In y (x :: l1)).
      { eapply Permutation_in; [ exact Hp | left; reflexivity ]. }
      destruct Hyin as [Hyin|Hyin]; [ symmetry; exact Hyin | ].
      specialize (Hx _ (in_map time_key _ _ Hyin)).
      specialize (Hy _ (in_map time_key _ _ Hin)). lia. }
    subst y. f_equal. apply IH; [ exact Hs | | exact Hc ].
    eapply Permutation_cons_inv. exact Hp.
Qed.

(** X14.  On a chronological series the readings of the last [hours] hours
    are the end of the series.  When no two of them bear the same
    timestamp, sorting them by time has one possible outcome, the frame
    itself, so the rolling plot and the Savitzky-Golay filter get them
    in their order of arrival.  A positive [limit] of [/data] keeps the
    newest of them, which the client is answered when JSON can spell
    them, and [!plot] draws them when [hours] is positive and there is
    one. *)
Theorem chronological_window (now : Timestamp) (hours : Z) (st : state) :
  chronological (sensor_data st) ->
  (exists older,
      sensor_data st = older ++ plot_frame now hours st
      /\ Forall (fun r => time_key r < Time.minus_hours now hours) older)
  /\ (strictly_chronological (plot_frame now hours st) ->
      (forall sorted,
          Permutation sorted (plot_frame now hours st) ->
          chronological sorted ->
          sorted = plot_frame now hours st)
      /\ (forall window df ts hs,
             send_plot_rolling now hours window st = Rolling_plot df ts hs ->
             df = plot_frame now hours st)
      /\ (forall window poly w p df,
             send_plot_savgol now hours window poly st
             = Savgol_filter_called w p df ->
             df = plot_frame now hours st))
  /\ (forall l,
         hours <> 0 -> 0 < l ->
         exists older kept,
           sensor_data st = older ++ kept
           /\ get_data (Some hours) (Some l) now st
              = Returns (map encode_entry kept)
           /\ GET_data (Some hours) (Some l) now st
              = (if forallb spellable kept
                 then Data (map encode_entry kept)
                 else Internal_Server_Error))
  /\ (forall h df,
         send_plot now hours st = Weather_plot h df ->
         0 < hours /\ df = plot_frame now hours st /\ df <> []).
Proof.
  intros Hs.
  destruct (filter_chronological (Time.minus_hours now hours) (sensor_data st) Hs)
    as (older & Hd & Ho & Hc).
  change (filter (fun r => Time.geb (time_key r) (Time.minus_hours now hours))
                 (sensor_data st))
    with (plot_frame now hours st) in Hd, Hc.
  pose proof (sort_values_chronological _ Hc) as Hsort.
  split; [ exists older; auto | ]. split; [ | split ].
  - intros Hstrict. split; [ | split ].
    + intros sorted Hp Hso. apply sorted_permutation_unique; assumption.
    + intros window df ts hs. unfold send_plot_rolling.
      destruct (sensor_data st) as [|r data] eqn:E; [ discriminate | ].
      unfold plot_frame in Hsort |- *. rewrite E in Hsort |- *.
      match goal with
      | |- context [if ?c then _ else _] => destruct c; [ discriminate | ]
      end.
      change (fun r0 : reading => Time.value (time r0)) with time_key.
      rewrite Hsort.
      destruct (smooth window _); [ | discriminate ].
      destruct (smooth window _); [ | discriminate ].
      intros [= <- _ _]. reflexivity.
    + intros window poly w p df. unfold send_plot_savgol.
      destruct (sensor_data st) as [|r data] eqn:E; [ discriminate | ].
      unfold plot_frame in Hsort |- *. rewrite E in Hsort |- *.
      match goal with
      | |- context [if ?c then _ else _] => destruct c; [ discriminate | ]
      end.
      change (fun r0 : reading => Time.value (time r0)) with time_key.
      rewrite Hsort. intros [= _ _ <-]. reflexivity.
  - intros l Hh Hl.
    rewrite GET_data_some, get_data_some, slice_from_last_n by exact Hl.
    assert (Hf : time_filter (Some hours) now (sensor_data st) = plot_frame now hours st).
    { unfold time_filter, plot_frame.
      replace (hours =? 0) with false by (symmetry; apply Z.eqb_neq; exact Hh).
      reflexivity. }
    rewrite Hf. unfold last_n.
    set (k := (List.length (plot_frame now hours st) - Z.to_nat l)%nat).
    exists (older ++ firstn k (plot_frame now hours st)),
           (skipn k (plot_frame now hours st)).
    split; [ | split; reflexivity ].
    rewrite <- app_assoc, firstn_skipn. exact Hd.
  - intros h df. unfold send_plot, plot_frame.
    destruct (sensor_data st) as [|r data]; [ discriminate | ].
    destruct (hours <=? 0) eqn:Eh; [ discriminate | ]. apply Z.leb_gt in Eh.
    set (fr := filter _ (r :: data)).
    destruct (Py.len fr =? 0) eqn:El; [ discriminate | ].
    intros [= _ <-]. repeat split; [ exact Eh | ].
    intros E. rewrite E in El. discriminate.
Qed.

Lemma chronological_window_witness :
  exists older,
    [sample_reading 28 0; sample_reading 29 30; sample_reading 30 45]
    = older ++ plot_frame (mkTimestamp 2024 3 1 13 20 0 0 0) 1
                 (set_sensor_data (initial_state Missing)
                    [sample_reading 28 0; sample_reading 29 30; sample_reading 30 45]).
Proof.
  destruct (proj1 (chronological_window (mkTimestamp 2024 3 1 13 20 0 0 0) 1
              (set_sensor_data (initial_state Missing)
                 [sample_reading 28 0; sample_reading 29 30; sample_reading 30 45])
              ltac:(unfold chronological; cbn; repeat constructor; lia)))
    as (older & Hd & _).
  exists older. exact Hd.
Defined.
